(** * TVS-Request: the stationery request tracker of [src/App.tsx]

    A shallow embedding of the state container behind the single-page
    application: the report store, the stock ledger and the event handlers
    that reconcile the two, the manual stock editor, the weekly bucketing of
    reports, the start-up migration of persisted stock and the PDF import.

    Conventions of the embedding.
    - A JavaScript number holding a quantity is an integer of [Z].
      [parseInt] rounds what it reads to a double; the sums and differences
      of the handlers are those of the integers, which they are as long as
      the quantities stay within [Number.MAX_SAFE_INTEGER].
    - A [Record<string, T>] is a [gmap string T]. [Object.entries] and
      [for ... in] enumerate a map through [map_to_list]; no key occurs
      twice in such an enumeration, and its order is the one of [gmap]
      rather than the insertion order of the engine. A plain object also
      answers to the names of [Object.prototype]: where a loop of the
      source reads a name that may be one of them, [readOr0] says so.
    - React state is passed explicitly: a handler takes the state its
      closure captured and returns the next state together with the
      effects it raised (the [alert] calls).
    - [new Date().toISOString().split('T')[0]] is the parameter [today] of a
      handler, [new Date().toISOString()] the parameter [now]; the time
      zone of the browser is the parameter [offset] of the list of weeks. *)

From Stdlib Require Import Ascii String ZArith Lia.
From stdpp Require Import gmap strings list fin_maps pretty sorting.

#[local] Open Scope Z_scope.
#[local] Open Scope string_scope.

(** ** Reports and stock entries *)

(** [status: 'Process' | 'Done'] of [src/types.ts]. *)
Inductive Status := Process | Done.

#[global] Instance Status_eq_dec : EqDecision Status.
Proof. solve_decision. Defined.

(** [Omit<Report, 'id'>]: the form draft, and the payload of a report. *)
Record FormData := mkFormData {
  requesterName : string;
  campus : string;
  importDate : string;
  exportDate : string;
  items : gmap string Z;
  status : Status
}.

(** [interface Report]: [{ id, ...fields }]. *)
Record Report := mkReport {
  id : string;
  fields : FormData
}.

(** [interface StockItem]. *)
Record StockItem := mkStockItem {
  quantity : Z;
  lastInDate : string;
  lastOutDate : string;
  lastUpdateQuantity : Z
}.

Definition initialFormData : FormData :=
  mkFormData "" "" "" "" ∅ Process.

(** The object literal
    [{ quantity: 0, lastInDate: '', lastOutDate: '', lastUpdateQuantity: 0 }]
    that the source writes in four places. *)
Definition emptyStockItem : StockItem := mkStockItem 0 "" "" 0.

(** ** Application state and effects *)

Record AppState := mkAppState {
  reports : list Report;
  formData : FormData;
  selectedReportId : option string;
  stock : gmap string StockItem;
  tempStock : gmap string StockItem;
  isEditingStock : bool;
  isConfirmingDelete : bool;
  isConfirmingClearStock : bool
}.

Inductive Effect :=
  | Alert (message : string).

Definition set_stock (s : gmap string StockItem) (st : AppState) : AppState :=
  mkAppState (reports st) (formData st) (selectedReportId st) s
             (tempStock st) (isEditingStock st) (isConfirmingDelete st)
             (isConfirmingClearStock st).

Definition set_reports (rs : list Report) (st : AppState) : AppState :=
  mkAppState rs (formData st) (selectedReportId st) (stock st)
             (tempStock st) (isEditingStock st) (isConfirmingDelete st)
             (isConfirmingClearStock st).

Definition set_formData (f : FormData) (st : AppState) : AppState :=
  mkAppState (reports st) f (selectedReportId st) (stock st)
             (tempStock st) (isEditingStock st) (isConfirmingDelete st)
             (isConfirmingClearStock st).

Definition set_selectedReportId (o : option string) (st : AppState) : AppState :=
  mkAppState (reports st) (formData st) o (stock st)
             (tempStock st) (isEditingStock st) (isConfirmingDelete st)
             (isConfirmingClearStock st).

Definition set_tempStock (s : gmap string StockItem) (st : AppState) : AppState :=
  mkAppState (reports st) (formData st) (selectedReportId st) (stock st)
             s (isEditingStock st) (isConfirmingDelete st)
             (isConfirmingClearStock st).

Definition set_isEditingStock (b : bool) (st : AppState) : AppState :=
  mkAppState (reports st) (formData st) (selectedReportId st) (stock st)
             (tempStock st) b (isConfirmingDelete st)
             (isConfirmingClearStock st).

Definition set_isConfirmingDelete (b : bool) (st : AppState) : AppState :=
  mkAppState (reports st) (formData st) (selectedReportId st) (stock st)
             (tempStock st) (isEditingStock st) b
             (isConfirmingClearStock st).

Definition set_isConfirmingClearStock (b : bool) (st : AppState) : AppState :=
  mkAppState (reports st) (formData st) (selectedReportId st) (stock st)
             (tempStock st) (isEditingStock st) (isConfirmingDelete st) b.

(** [clearForm]. *)
Definition clearForm (st : AppState) : AppState :=
  set_selectedReportId None (set_formData initialFormData st).

(** ** The stock ledger *)

(** [stock[item]?.quantity || 0]. *)
Definition available (stock : gmap string StockItem) (item : string) : Z :=
  match stock !! item with
  | Some si => quantity si
  | None => 0
  end.

(** [items[item] || 0]. *)
Definition qty (items : gmap string Z) (item : string) : Z :=
  default 0 (items !! item).

(** [if (newStock[item]) { ...assignments to newStock[item]... }]: the
    entry is rewritten where it is, and a name without an entry is passed
    over. *)
Definition touch (g : StockItem → StockItem) (item : string)
    (newStock : gmap string StockItem) : gmap string StockItem :=
  match newStock !! item with
  | Some si => <[item := g si]> newStock
  | None => newStock
  end.

(** Body of the deduction loops of [handleAddReport] and of the
    Process -> Done case of [handleUpdateReport]. *)
Definition takeOut (today : string) (numQuantity : Z) (si : StockItem) : StockItem :=
  mkStockItem (quantity si - numQuantity) (lastInDate si) today (- numQuantity).

(** Body of the add-back loops of [handleConfirmDelete] and of the
    Done -> Process case of [handleUpdateReport]. *)
Definition putBack (today : string) (numQuantity : Z) (si : StockItem) : StockItem :=
  mkStockItem (quantity si + numQuantity) today (lastOutDate si) numQuantity.

(** Body of the Done -> Done case: [delta = originalQty - updatedQty]. *)
Definition applyDelta (today : string) (delta : Z) (si : StockItem) : StockItem :=
  if bool_decide (delta = 0) then si
  else if bool_decide (0 < delta)
  then mkStockItem (quantity si + delta) today (lastOutDate si) delta
  else mkStockItem (quantity si + delta) (lastInDate si) today delta.

Definition deductItems (today : string) (itemsToDeduct : gmap string Z)
    (prevStock : gmap string StockItem) : gmap string StockItem :=
  foldl (λ newStock e, touch (takeOut today e.2) e.1 newStock)
        prevStock (map_to_list itemsToDeduct).

Definition addBackItems (today : string) (itemsToAddBack : gmap string Z)
    (prevStock : gmap string StockItem) : gmap string StockItem :=
  foldl (λ newStock e, touch (putBack today e.2) e.1 newStock)
        prevStock (map_to_list itemsToAddBack).

(** [new Set([...Object.keys(originalItems), ...Object.keys(updatedItems)])]. *)
Definition allItems (originalItems updatedItems : gmap string Z) : list string :=
  remove_dups ((map_to_list originalItems).*1 ++ (map_to_list updatedItems).*1).

Definition applyDeltas (today : string) (originalItems updatedItems : gmap string Z)
    (prevStock : gmap string StockItem) : gmap string StockItem :=
  foldl (λ newStock item,
           touch (applyDelta today (qty originalItems item - qty updatedItems item))
                 item newStock)
        prevStock (allItems originalItems updatedItems).

(** The functional updater passed to [setStock] by [handleUpdateReport]. *)
Definition reconcileUpdate (today : string) (original updated : FormData)
    (prevStock : gmap string StockItem) : gmap string StockItem :=
  match status original, status updated with
  | Process, Done => deductItems today (items updated) prevStock
  | Done, Process => addBackItems today (items original) prevStock
  | Done, Done => applyDeltas today (items original) (items updated) prevStock
  | Process, Process => prevStock
  end.

(** ** The stock check that precedes a consuming transition *)

(** One refused line: what the alert prints for it. *)
Record Shortfall := mkShortfall {
  sfItem : string;
  sfRequested : Z;
  sfAvailable : Z
}.

(** [`${item} (requested ${quantity}, available ${stock[item]?.quantity || 0})`] *)
Definition renderShortfall (sf : Shortfall) : string :=
  sfItem sf +:+ " (requested " +:+ pretty (sfRequested sf) +:+
  ", available " +:+ pretty (sfAvailable sf) +:+ ")".

(** [`${item} (requested ${delta} more, available ${stock[item]?.quantity || 0})`] *)
Definition renderShortfallMore (sf : Shortfall) : string :=
  sfItem sf +:+ " (requested " +:+ pretty (sfRequested sf) +:+
  " more, available " +:+ pretty (sfAvailable sf) +:+ ")".

(** The loop over [Object.entries(...)] shared by [handleAddReport] and the
    Process -> Done case of [handleUpdateReport]. *)
Definition insufficientFor (stock : gmap string StockItem)
    (requested : gmap string Z) : list Shortfall :=
  omap (λ e : string * Z,
          if bool_decide (available stock e.1 < e.2)
          then Some (mkShortfall e.1 e.2 (available stock e.1))
          else None)
       (map_to_list requested).

(** The loop of the Done -> Done case: here
    [delta = updatedQty - originalQty], positive when more is taken. *)
Definition insufficientForDelta (stock : gmap string StockItem)
    (originalItems updatedItems : gmap string Z) : list Shortfall :=
  omap (λ item : string,
          let delta := qty updatedItems item - qty originalItems item in
          if bool_decide (0 < delta) && bool_decide (available stock item < delta)
          then Some (mkShortfall item delta (available stock item))
          else None)
       (allItems originalItems updatedItems).

(** [insufficientItems] of [handleUpdateReport], still structured. *)
Definition updateShortfalls (stock : gmap string StockItem)
    (original updated : FormData) : list Shortfall :=
  match status original, status updated with
  | Process, Done => insufficientFor stock (items updated)
  | Done, Done => insufficientForDelta stock (items original) (items updated)
  | _, _ => []
  end.

(** [insufficientItems] of [handleUpdateReport], as pushed. *)
Definition updateInsufficientItems (stock : gmap string StockItem)
    (original updated : FormData) : list string :=
  match status original, status updated with
  | Done, Done => renderShortfallMore <$> updateShortfalls stock original updated
  | _, _ => renderShortfall <$> updateShortfalls stock original updated
  end.

Definition addRefusal (insufficientItems : list string) : string :=
  "Cannot add report. Insufficient stock for: " +:+
  String.concat ", " insufficientItems +:+ ".".

Definition updateRefusal (insufficientItems : list string) : string :=
  "Cannot update report. Insufficient stock for: " +:+
  String.concat ", " insufficientItems +:+ ".".

(** ** Report handlers *)

(** [!s] on a string. *)
Definition blank (s : string) : bool := bool_decide (s = "").

(** [reports.find(r => r.id === selectedReportId)] *)
Definition findReport (rs : list Report) (sel : string) : option Report :=
  List.find (λ r, bool_decide (id r = sel)) rs.

Definition handleAddReport (today now : string) (st : AppState)
    : AppState * list Effect :=
  let fd := formData st in
  if blank (requesterName fd) || blank (campus fd) ||
     blank (importDate fd) || blank (exportDate fd)
  then (st, [Alert "Please fill all fields, including dates."])
  else
    let newReport := mkReport now fd in
    match status fd with
    | Done =>
        let insufficientItems :=
          renderShortfall <$> insufficientFor (stock st) (items fd) in
        if bool_decide (insufficientItems = [])
        then (clearForm (set_reports (reports st ++ [newReport])
                (set_stock (deductItems today (items fd) (stock st)) st)), [])
        else (st, [Alert (addRefusal insufficientItems)])
    | Process =>
        (clearForm (set_reports (reports st ++ [newReport]) st), [])
    end.

(** [{ ...r, ...updatedData }] *)
Definition overwrite (r : Report) (updatedData : FormData) : Report :=
  mkReport (id r) updatedData.

Definition handleUpdateReport (today : string) (st : AppState)
    : AppState * list Effect :=
  match selectedReportId st with
  | None => (st, [])
  | Some sel =>
      if blank sel then (st, [])
      else
        match findReport (reports st) sel with
        | None => (st, [])
        | Some originalReport =>
            let updatedData := formData st in
            let insufficientItems :=
              updateInsufficientItems (stock st) (fields originalReport) updatedData in
            if bool_decide (insufficientItems = [])
            then
              (clearForm
                 (set_reports
                    ((λ r, if bool_decide (id r = sel)
                           then overwrite r updatedData else r) <$> reports st)
                    (set_stock
                       (reconcileUpdate today (fields originalReport) updatedData
                          (stock st))
                       st)), [])
            else (st, [Alert (updateRefusal insufficientItems)])
        end
  end.

Definition handleConfirmDelete (today : string) (st : AppState)
    : AppState * list Effect :=
  match selectedReportId st with
  | None => (st, [])
  | Some sel =>
      if blank sel then (st, [])
      else
        let st1 :=
          match findReport (reports st) sel with
          | Some reportToDelete =>
              match status (fields reportToDelete) with
              | Done =>
                  set_stock (addBackItems today (items (fields reportToDelete))
                               (stock st)) st
              | Process => st
              end
          | None => st
          end in
        (set_isConfirmingDelete false
           (clearForm
              (set_reports
                 (List.filter (λ r, negb (bool_decide (id r = sel))) (reports st))
                 st1)), [])
  end.

(** [handleSelectReport]: the draft becomes a copy of the report. *)
Definition handleSelectReport (report : Report) (st : AppState) : AppState :=
  set_formData (fields report) (set_selectedReportId (Some (id report)) st).

(** ** Reading a quantity typed by the user *)

(** The white space [parseInt] skips, for the characters below 128. *)
Definition isWhiteSpace (c : ascii) : bool :=
  let n := nat_of_ascii c in
  ((9 <=? n) && (n <=? 13))%nat || (n =? 32)%nat.

Fixpoint trimStart (s : string) : string :=
  match s with
  | String c r => if isWhiteSpace c then trimStart r else s
  | EmptyString => s
  end.

Definition trimEnd (s : string) : string := String.rev (trimStart (String.rev s)).

(** [s.trim()] *)
Definition trim (s : string) : string := trimEnd (trimStart s).

Definition digitValue (c : ascii) : option Z :=
  let n := nat_of_ascii c in
  if ((48 <=? n) && (n <=? 57))%nat then Some (Z.of_nat n - 48) else None.

(** The longest prefix of decimal digits, read in base ten; [None] when
    the prefix is empty. *)
Fixpoint leadingDigits (acc : option Z) (s : string) : option Z :=
  match s with
  | String c r =>
      match digitValue c with
      | Some d => leadingDigits (Some (10 * default 0 acc + d)) r
      | None => acc
      end
  | EmptyString => acc
  end.

(** The integer a text begins with, after white space and a sign. *)
Definition integerPrefix (value : string) : option Z :=
  match trimStart value with
  | String "-" r => Z.opp <$> leadingDigits None r
  | String "+" r => leadingDigits None r
  | s => leadingDigits None s
  end.

(** The numbers of the source are doubles: the double nearest to an
    integer, ties going to the even significand. The integers up to 2^53
    are doubles. *)
Definition toDouble (n : Z) : Z :=
  if (Z.abs n <=? 2 ^ 53)%Z then n
  else
    let e := (Z.log2 (Z.abs n) - 52)%Z in
    let q := (Z.abs n / 2 ^ e)%Z in
    let r := (Z.abs n mod 2 ^ e)%Z in
    let half := (2 ^ (e - 1))%Z in
    let q := if (half <? r)%Z || ((r =? half)%Z && Z.odd q) then (q + 1)%Z else q in
    (Z.sgn n * q * 2 ^ e)%Z.

(** [parseInt(value, 10)]; [None] is [NaN]. A numeral so long that the
    source reads it as [Infinity] (more than 308 digits), or that the
    engine is allowed to approximate (more than 20 significant digits), is
    not modelled. *)
Definition parseInt (value : string) : option Z :=
  toDouble <$> integerPrefix value.

(** The updater [handleItemQuantityChange] passes to [setFormData]. *)
Definition changeItemQuantity (item value : string) (prev : FormData) : FormData :=
  let newItems :=
    match parseInt value with
    | Some quantity =>
        if bool_decide (0 < quantity)
        then <[item := quantity]> (items prev)
        else delete item (items prev)
    | None => delete item (items prev)
    end in
  mkFormData (requesterName prev) (campus prev) (importDate prev)
             (exportDate prev) newItems (status prev).

Definition handleItemQuantityChange (item value : string) (st : AppState) : AppState :=
  set_formData (changeItemQuantity item value (formData st)) st.

(** ** Manual stock editing *)

(** [isNaN(quantity) || quantity < 0 ? 0 : quantity] *)
Definition editedQuantity (value : string) : Z :=
  match parseInt value with
  | Some quantity => if bool_decide (quantity < 0) then 0 else quantity
  | None => 0
  end.

(** The updater [handleTempStockChange] passes to [setTempStock]. *)
Definition changeTempStock (item value : string)
    (prev : gmap string StockItem) : gmap string StockItem :=
  let currentItem := default emptyStockItem (prev !! item) in
  <[item := mkStockItem (editedQuantity value) (lastInDate currentItem)
              (lastOutDate currentItem) (lastUpdateQuantity currentItem)]> prev.

Definition handleTempStockChange (item value : string) (st : AppState) : AppState :=
  set_tempStock (changeTempStock item value (tempStock st)) st.

(** One round of the loop of [handleSaveStock] over the keys of the copy. *)
Definition savedEntry (today : string) (stock : gmap string StockItem)
    (item : string) (edited : StockItem) : StockItem :=
  let oldStockItem := default emptyStockItem (stock !! item) in
  let delta := quantity edited - quantity oldStockItem in
  if bool_decide (delta = 0)
  then mkStockItem (quantity edited) (lastInDate oldStockItem)
         (lastOutDate oldStockItem) (lastUpdateQuantity oldStockItem)
  else if bool_decide (0 < delta)
  then mkStockItem (quantity edited) today (lastOutDate oldStockItem) delta
  else mkStockItem (quantity edited) (lastInDate oldStockItem) today delta.

Definition savedStock (today : string) (tempStock stock : gmap string StockItem)
    : gmap string StockItem :=
  map_imap (λ item edited, Some (savedEntry today stock item edited)) tempStock.

Definition handleSaveStock (today : string) (st : AppState) : AppState :=
  set_isEditingStock false
    (set_stock (savedStock today (tempStock st) (stock st)) st).

(** [useEffect(() => { if (!isEditingStock) setTempStock(stock) })]. *)
Definition syncTempStock (st : AppState) : AppState :=
  if isEditingStock st then st else set_tempStock (stock st) st.

(** The updater [handleConfirmClearStock] passes to [setStock]. *)
Definition clearedStock (prevStock : gmap string StockItem) : gmap string StockItem :=
  foldl (λ cleared itemKey, <[itemKey := emptyStockItem]> cleared)
        ∅ (map_to_list prevStock).*1.

Definition handleConfirmClearStock (st : AppState) : AppState :=
  set_isConfirmingClearStock false (set_stock (clearedStock (stock st)) st).

(** ** Loosely typed data: what [JSON.parse] returns

    The members of a parsed object carry pairwise distinct names. The typed
    records above have no place for a value of another runtime type than
    the declared one: where the source stores such a value as it is (a text
    field that is not a string, a quantity that is not a number), the model
    reads the field as absent. What is proved of the records built from
    parsed data is therefore stated for data that fits the declared types
    ([fitsReport], further down). *)

#[warnings="-register-all"] Inductive json :=
  | JNull
  | JBool (b : bool)
  | JNum (n : Z)
  | JStr (s : string)
  | JArr (elements : list json)
  | JObj (members : list (string * json)).

(** [v[name]] for a value that is neither [null] nor [undefined]; [None]
    is [undefined]. None of the names the source reads ([reports],
    [quantity], ...) is a built-in property of arrays or strings. *)
Definition getProp (v : json) (name : string) : option json :=
  match v with
  | JObj members => snd <$> List.find (λ kv, bool_decide (kv.1 = name)) members
  | _ => None
  end.

(** [name in v] for an object. *)
Definition hasProp (v : json) (name : string) : bool :=
  bool_decide (is_Some (getProp v name)).

(** [!!v]; an absent value is [undefined]. *)
Definition truthy (v : option json) : bool :=
  match v with
  | None | Some JNull | Some (JBool false) => false
  | Some (JNum n) => negb (bool_decide (n = 0))
  | Some (JStr s) => negb (blank s)
  | Some _ => true
  end.

(** [typeof v === 'object']: [null] and arrays included. *)
Definition typeofObject (v : option json) : bool :=
  match v with
  | Some JNull | Some (JArr _) | Some (JObj _) => true
  | _ => false
  end.

(** The own enumerable properties walked by [for (const k in v)]. *)
Definition ownProps (v : json) : list (string * json) :=
  match v with
  | JObj members => members
  | JArr elements => imap (λ i x, (pretty i, x)) elements
  | _ => []
  end.

(** [v || fallback] read at type [string]. *)
Definition textOr (fallback : string) (v : option json) : string :=
  match v with
  | Some (JStr s) => if blank s then fallback else s
  | _ => fallback
  end.

(** A string made of decimal digits only, read in base ten. *)
Fixpoint wholeDigits (acc : option Z) (s : string) : option Z :=
  match s with
  | String c r =>
      match digitValue c with
      | Some d => wholeDigits (Some (10 * default 0 acc + d)) r
      | None => None
      end
  | EmptyString => acc
  end.

(** [Number(s)] for a string that spells a decimal integer, white space
    around it and a sign before it allowed; [None] stands for [NaN] and for
    the numbers that are no integers. The empty string is [0]. *)
Definition stringToNumber (s : string) : option Z :=
  match trimEnd (trimStart s) with
  | EmptyString => Some 0
  | String "-" r => Z.opp <$> wholeDigits None r
  | String "+" r => wholeDigits None r
  | t => wholeDigits None t
  end.

(** [Number(v) || 0] on the integers. An array or an object, which
    JavaScript prints before it reads it as a number, counts as [NaN], and
    so does a string that spells a number otherwise than as a decimal
    integer (a fraction, an exponent, a radix prefix): the quantities the
    page stores are numbers. *)
Definition numberOr0 (v : option json) : Z :=
  match v with
  | Some (JNum n) => n
  | Some (JBool true) => 1
  | Some (JStr s) => default 0 (stringToNumber s)
  | _ => 0
  end.

(** ** Stock read back from local storage *)

(** The four-way case analysis of the [useState] initialiser of [stock],
    on [savedStock[item]]. *)
Definition migrateStockItem (today : string) (saved : option json) : StockItem :=
  match saved with
  | Some (JNum n) => mkStockItem n today "" 0
  | Some (JObj _ as stockItem) =>
      if hasProp stockItem "dateAdded"
      then mkStockItem (numberOr0 (getProp stockItem "quantity"))
             (textOr today (getProp stockItem "dateAdded")) "" 0
      else if hasProp stockItem "quantity" && hasProp stockItem "lastInDate"
      then mkStockItem (numberOr0 (getProp stockItem "quantity"))
             (textOr "" (getProp stockItem "lastInDate"))
             (textOr "" (getProp stockItem "lastOutDate"))
             (numberOr0 (getProp stockItem "lastUpdateQuantity"))
      else emptyStockItem
  | _ => emptyStockItem
  end.

(** The initialiser itself. [STATIONARY_ITEMS_ROW1] and
    [STATIONARY_ITEMS_ROW2] come from [src/constants], which is not part of
    the sources at hand, and are parameters; [savedStock] is the parsed
    object, [JObj []] when nothing was stored or the text did not parse.
    The stored text [null], for which the source throws when it reads
    [savedStock[item]], has no image here. *)
Definition initialStock (STATIONARY_ITEMS_ROW1 STATIONARY_ITEMS_ROW2 : list string)
    (today : string) (savedStock : json) : gmap string StockItem :=
  foldl (λ migratedStock item,
           <[item := migrateStockItem today (getProp savedStock item)]> migratedStock)
        ∅ (remove_dups (STATIONARY_ITEMS_ROW1 ++ STATIONARY_ITEMS_ROW2)).

(** ** Exceptions *)

Inductive thrown :=
  | ErrorObject (message : string)
  | OtherValue.

Inductive outcome (A : Type) :=
  | Returned (a : A)
  | Thrown (e : thrown).
Arguments Returned {A} a.
Arguments Thrown {A} e.

#[global] Instance outcome_ret : MRet outcome := λ A a, Returned a.
#[global] Instance outcome_bind : MBind outcome := λ A B f m,
  match m with
  | Returned a => f a
  | Thrown e => Thrown e
  end.

Definition throwError {A} (message : string) : outcome A :=
  Thrown (ErrorObject message).

(** ** PDF import *)

Definition isWordChar (c : ascii) : bool :=
  let n := nat_of_ascii c in
  (((48 <=? n) && (n <=? 57)) || ((65 <=? n) && (n <=? 90)) ||
   ((97 <=? n) && (n <=? 122)) || (n =? 95))%nat.

Fixpoint dropWord (s : string) : string :=
  match s with
  | String c r => if isWordChar c then dropWord r else s
  | EmptyString => s
  end.

Definition endsWith (suffix s : string) : bool :=
  String.prefix (String.rev suffix) (String.rev s).

(** The match against [fenceRegex] (flag [s]: three backquotes at the
    start, an optional run of word characters, optional white space, a lazy
    group, optional white space, three backquotes at the end) and the
    replacement by the trimmed group when it is not empty. Between the two
    fences the greedy word and white-space runs take the language tag and
    what follows it, and the lazy group stops before the trailing white
    space.*)
Definition stripFence (jsonStr : string) : string :=
  if (6 <=? String.length jsonStr)%nat && String.prefix "```" jsonStr
     && endsWith "```" jsonStr
  then
    let inner := substring 3 (String.length jsonStr - 6) jsonStr in
    let group2 := trimEnd (trimStart (dropWord inner)) in
    if blank group2 then jsonStr else group2
  else jsonStr.

(** What lies outside the program during one run of [handlePdfImport]. *)
Record ImportRun := mkImportRun {
  (** pdf.js: the text of all pages, [fullText], or what it threw *)
  extractText : outcome string;
  (** the generative service: [response.text] for the prompt built around
      the text, or what the call threw *)
  generateContent : string → outcome string;
  (** [JSON.parse] *)
  JSON_parse : string → outcome json;
  (** [new Date().toISOString()] and [Math.random()], as printed, for the
      k-th entry of the array *)
  stamp : nat → string;
  random : nat → string
}.

(** [item.items && typeof item.items === 'object' && !Array.isArray(item.items)
     ? item.items : {}] *)
Definition itemsOf (v : option json) : gmap string Z :=
  match v with
  | Some (JObj members) =>
      foldl (λ m kv, match kv.2 with JNum n => <[kv.1 := n]> m | _ => m end)
            ∅ members
  | _ => ∅
  end.

(** The object literal the callback of [parsedReports.map] returns. *)
Definition reportOf (run : ImportRun) (k : nat) (item : json) : Report :=
  mkReport ("imported-" +:+ stamp run k +:+ "-" +:+ random run k)
    (mkFormData (textOr "" (getProp item "requesterName"))
                (textOr "" (getProp item "campus"))
                (textOr "" (getProp item "importDate"))
                (textOr "" (getProp item "exportDate"))
                (itemsOf (getProp item "items"))
                (match getProp item "status" with
                 | Some (JStr "Done") => Done
                 | _ => Process
                 end)).

(** The message of the [TypeError], in the words of V8. *)
Definition nullStatus : string :=
  "Cannot read properties of null (reading 'status')".

(** The callback itself: reading [item.status] of [null] throws a
    [TypeError]. *)
Definition importedReport (run : ImportRun) (k : nat) (item : json) : outcome Report :=
  match item with
  | JNull => throwError nullStatus
  | _ => Returned (reportOf run k item)
  end.

Fixpoint importedReports (run : ImportRun) (k : nat) (parsedReports : list json)
    : outcome (list Report) :=
  match parsedReports with
  | [] => Returned []
  | item :: rest =>
      r ← importedReport run k item;
      rs ← importedReports run (S k) rest;
      mret (r :: rs)
  end.

(** [r => r.requesterName && r.campus && r.importDate] *)
Definition hasRequiredFields (r : Report) : bool :=
  negb (blank (requesterName (fields r))) && negb (blank (campus (fields r)))
  && negb (blank (importDate (fields r))).

(** The loop over [parsedStock]. *)
Definition importedStock (parsedStock : json) : gmap string StockItem :=
  foldl (λ newStock kv,
           match kv.2, getProp kv.2 "quantity" with
           | JObj _, Some (JNum n) =>
               <[kv.1 := mkStockItem n
                    (match getProp kv.2 "lastInDate" with
                     | Some (JStr d) => if bool_decide (d = "N/A") then "" else d
                     | _ => ""
                     end) "" 0]> newStock
           | _, _ => newStock
           end)
        ∅ (ownProps parsedStock).

(** The first half of the [try] block: from the file to the parsed
    answer of the service. *)
Definition requestPayload (run : ImportRun) : outcome json :=
  fullText ← extractText run;
  if blank (trim fullText)
  then throwError "Could not extract any text from the PDF."
  else
    text ← generateContent run fullText;
    JSON_parse run (stripFence (trim text)).

(** The second half, up to the two [set...] calls: the checks on the parsed
    answer and the construction of the new reports and of the new stock. *)
Definition validatePayload (run : ImportRun) (parsedData : json)
    : outcome (list Report * gmap string StockItem) :=
  if negb (truthy (Some parsedData)) || negb (typeofObject (Some parsedData))
  then throwError "AI response is not a valid JSON object."
  else
    match getProp parsedData "reports" with
    | Some (JArr parsedReports) =>
        mapped ← importedReports run 0 parsedReports;
        let newReports := List.filter hasRequiredFields mapped in
        let parsedStock := getProp parsedData "stock" in
        if negb (truthy parsedStock) || negb (typeofObject parsedStock)
        then throwError "AI did not return a valid object in the 'stock' key."
        else mret (newReports, importedStock (default JNull parsedStock))
    | _ => throwError "AI did not return a valid array of reports in the 'reports' key."
    end.

Definition importPayload (run : ImportRun)
    : outcome (list Report * gmap string StockItem) :=
  parsedData ← requestPayload run;
  validatePayload run parsedData.

(** [error instanceof Error ? error.message : "An unknown error occurred."] *)
Definition errorMessage (e : thrown) : string :=
  match e with
  | ErrorObject message => message
  | OtherValue => "An unknown error occurred."
  end.

Definition importSuccess (newReports : list Report) : string :=
  "Successfully imported " +:+ pretty (length newReports) +:+
  " reports and replaced the stock inventory.".

Definition importFailure (error : thrown) : string :=
  "Error importing PDF: " +:+ errorMessage error.

(** [handlePdfImport]; [file] is [e.target.files?.[0]]. The [isImporting]
    flag, raised at the start and lowered in [finally], is left out. *)
Definition handlePdfImport (file : option ImportRun) (st : AppState)
    : AppState * list Effect :=
  match file with
  | None => (st, [])
  | Some run =>
      match importPayload run with
      | Returned (newReports, newStock) =>
          (set_stock newStock (set_reports newReports st),
           [Alert (importSuccess newReports)])
      | Thrown error => (st, [Alert (importFailure error)])
      end
  end.

(** ** Dates

    A [Date] built from ['YYYY-MM-DD' + 'T00:00:00'] is a local midnight;
    it is kept as the number of its day, counted from 1970-01-01 in local
    time (the time value divided by the length of a day). The calendar
    arithmetic of the engine ([MakeDay], [YearFromTime], [MonthFromTime],
    [DateFromTime], [WeekDay] of ECMA-262) is written with the usual
    closed formulas on the proleptic Gregorian calendar; months count from
    1 here. The time zone comes in with [toISOString], in the list of
    weeks. *)

#[local] Open Scope Z_scope.

Record Date := mkDate { localDay : Z }.

(** [MakeDay(year, month, day)]; [day] may lie outside the month. *)
Definition daysFromCivil (year month day : Z) : Z :=
  let y := if month <=? 2 then year - 1 else year in
  let era := y / 400 in
  let yoe := y - era * 400 in
  let mp := if 2 <? month then month - 3 else month + 9 in
  let doy := (153 * mp + 2) / 5 + day - 1 in
  let doe := yoe * 365 + yoe / 4 - yoe / 100 + doy in
  era * 146097 + doe - 719468.

(** [(YearFromTime t, MonthFromTime t + 1, DateFromTime t)]. *)
Definition civilFromDays (z : Z) : Z * Z * Z :=
  let z := z + 719468 in
  let era := z / 146097 in
  let doe := z - era * 146097 in
  let yoe := (doe - doe / 1460 + doe / 36524 - doe / 146096) / 365 in
  let doy := doe - (365 * yoe + yoe / 4 - yoe / 100) in
  let mp := (5 * doy + 2) / 153 in
  let d := doy - (153 * mp + 2) / 5 + 1 in
  let m := if mp <? 10 then mp + 3 else mp - 9 in
  (if m <=? 2 then yoe + era * 400 + 1 else yoe + era * 400, m, d).

Definition isLeapYear (y : Z) : bool :=
  ((y mod 4 =? 0) && negb (y mod 100 =? 0)) || (y mod 400 =? 0).

Definition daysInMonth (y m : Z) : Z :=
  if m =? 2 then (if isLeapYear y then 29 else 28)
  else if (m =? 4) || (m =? 6) || (m =? 9) || (m =? 11) then 30
  else 31.

Definition number2 (a b : ascii) : option Z :=
  x ← digitValue a; y ← digitValue b; Some (10 * x + y).

(** The date part of the ISO format: four, two and two digits that name a
    day of the calendar. Engines differ on a day past the end of its
    month; here it is not a date. *)
Definition parseIsoDate (s : string) : option (Z * Z * Z) :=
  match list_ascii_of_string s with
  | [y1; y2; y3; y4; "-"%char; m1; m2; "-"%char; d1; d2] =>
      yh ← number2 y1 y2; yl ← number2 y3 y4;
      m ← number2 m1 m2; d ← number2 d1 d2;
      let y := 100 * yh + yl in
      if (1 <=? m) && (m <=? 12) && (1 <=? d) && (d <=? daysInMonth y m)
      then Some (y, m, d) else None
  | _ => None
  end.

(** [new Date(dateString + 'T00:00:00')]; [None] is an invalid date. *)
Definition newDate (dateString : string) : option Date :=
  ymd ← parseIsoDate dateString;
  Some (mkDate (daysFromCivil ymd.1.1 ymd.1.2 ymd.2)).

(** [date.getDay()]: 0 is Sunday; day 0 was a Thursday. *)
Definition getDay (date : Date) : Z := (localDay date + 4) mod 7.

(** [date.getDate()] *)
Definition getDate (date : Date) : Z := (civilFromDays (localDay date)).2.

(** [date.setDate(dt)]: the day [dt] of the month [date] lies in. *)
Definition setDate (date : Date) (dt : Z) : Date :=
  let ymd := civilFromDays (localDay date) in
  mkDate (daysFromCivil ymd.1.1 ymd.1.2 dt).

Definition getStartOfWeek (dateString : string) : option Date :=
  date ← newDate dateString;
  let day := getDay date in
  let diff := getDate date - day + (if day =? 0 then -6 else 1) in
  Some (setDate date diff).

(** The number of days [getStartOfWeek] is said to go back:
    [dayOfWeek == 0 ? 6 : dayOfWeek - 1]. *)
Definition daysSinceMonday (dayOfWeek : Z) : Z :=
  if dayOfWeek =? 0 then 6 else dayOfWeek - 1.

#[local] Open Scope string_scope.

(** ** Events

    One constructor per callback the page wires to a control. *)

Inductive InputName :=
  | RequesterNameInput | CampusInput | StatusInput | ImportDateInput | ExportDateInput.

Inductive Event :=
  | InputChange (name : InputName) (value : string)
  | ItemQuantityChange (item value : string)
  | ClearForm
  | AddReport (now : string)
  | SelectReport (row : nat)
  | UpdateReport
  | DeleteReport
  | CancelDelete
  | ConfirmDelete
  | EditStock
  | TempStockChange (item value : string)
  | SaveStock
  | CancelEditStock
  | AskClearStock
  | CancelClearStock
  | ConfirmClearStock
  | PdfImport (file : option ImportRun).

(** [setFormData(prev => ({ ...prev, [name]: value }))], for the five named
    controls of the form; the status control offers ['Process'] and
    ['Done']. *)
Definition handleInputChange (name : InputName) (value : string)
    (st : AppState) : AppState :=
  let prev := formData st in
  set_formData
    match name with
    | RequesterNameInput =>
        mkFormData value (campus prev) (importDate prev) (exportDate prev)
                   (items prev) (status prev)
    | CampusInput =>
        mkFormData (requesterName prev) value (importDate prev) (exportDate prev)
                   (items prev) (status prev)
    | StatusInput =>
        mkFormData (requesterName prev) (campus prev) (importDate prev)
                   (exportDate prev) (items prev)
                   (if bool_decide (value = "Done") then Done else Process)
    | ImportDateInput =>
        mkFormData (requesterName prev) (campus prev) value (exportDate prev)
                   (items prev) (status prev)
    | ExportDateInput =>
        mkFormData (requesterName prev) (campus prev) (importDate prev) value
                   (items prev) (status prev)
    end st.

(** [handleDeleteReport] *)
Definition handleDeleteReport (st : AppState) : AppState :=
  match selectedReportId st with
  | None => st
  | Some sel => if blank sel then st else set_isConfirmingDelete true st
  end.

(** [handleCancelEditStock] *)
Definition handleCancelEditStock (st : AppState) : AppState :=
  set_isEditingStock false (set_tempStock (stock st) st).

Definition handle (today : string) (ev : Event) (st : AppState)
    : AppState * list Effect :=
  match ev with
  | InputChange name value => (handleInputChange name value st, [])
  | ItemQuantityChange item value => (handleItemQuantityChange item value st, [])
  | ClearForm => (clearForm st, [])
  | AddReport now => handleAddReport today now st
  | SelectReport row =>
      (match reports st !! row with
       | Some report => handleSelectReport report st
       | None => st
       end, [])
  | UpdateReport => handleUpdateReport today st
  | DeleteReport => (handleDeleteReport st, [])
  | CancelDelete => (set_isConfirmingDelete false st, [])
  | ConfirmDelete => handleConfirmDelete today st
  | EditStock => (set_isEditingStock true st, [])
  | TempStockChange item value => (handleTempStockChange item value st, [])
  | SaveStock => (handleSaveStock today st, [])
  | CancelEditStock => (handleCancelEditStock st, [])
  | AskClearStock => (set_isConfirmingClearStock true st, [])
  | CancelClearStock => (set_isConfirmingClearStock false st, [])
  | ConfirmClearStock => (handleConfirmClearStock st, [])
  | PdfImport file => handlePdfImport file st
  end.

(** A session: each event with the calendar day it happens on. *)
Definition run (session : list (string * Event)) (st : AppState) : AppState :=
  foldl (λ s e, (handle e.1 e.2 s).1) st session.

Definition isPdfImport (ev : Event) : bool :=
  match ev with PdfImport _ => true | _ => false end.

(** The state of a first visit, nothing stored: every catalogue item at
    zero. *)
Definition firstState (STATIONARY_ITEMS_ROW1 STATIONARY_ITEMS_ROW2 : list string)
    (today : string) : AppState :=
  let stock := initialStock STATIONARY_ITEMS_ROW1 STATIONARY_ITEMS_ROW2 today (JObj []) in
  mkAppState [] initialFormData None stock stock false false false.

(** ** The properties, in the words of the specification *)

(** The report the form is editing. *)
Definition selectedReport (st : AppState) : option Report :=
  sel ← selectedReportId st;
  if blank sel then None else findReport (reports st) sel.



(** No quantity of an items map is zero or negative. *)
Definition positiveItems (m : gmap string Z) : Prop :=
  map_Forall (λ _ quantity, 0 < quantity)%Z m.

(** The invariant on the draft and on every stored report. *)
Definition itemsInvariant (st : AppState) : Prop :=
  positiveItems (items (formData st)) ∧
  Forall (λ r, positiveItems (items (fields r))) (reports st).

(** The editing copy after a series of entries [(item, text)] in the stock
    editor. *)
Definition typed (edits : list (string * string)) (temp : gmap string StockItem)
    : gmap string StockItem :=
  foldl (λ t e, changeTempStock e.1 e.2 t) temp edits.

(** The events of the life of a report that reconcile the stock. *)
Definition isLifecycle (ev : Event) : bool :=
  match ev with
  | AddReport _ | UpdateReport | ConfirmDelete => true
  | _ => false
  end.

(** The shape the three reconciliation loops share: one [touch] for each
    element of an enumeration. *)
Definition sweep {A : Type} (key : A → string) (g : A → StockItem → StockItem)
    (l : list A) (s : gmap string StockItem) : gmap string StockItem :=
  foldl (λ newStock x, touch (g x) (key x) newStock) s l.

(** *** The steps of the import, as the specification lists them *)

(** Neither [null] nor a primitive: an object or an array. *)
Definition isObjectValue (v : json) : bool :=
  match v with
  | JArr _ | JObj _ => true
  | _ => false
  end.

(** Steps 1 to 4 went through: text was extracted, the service answered,
    and the answer, without its fence, parsed to [v]. *)
Definition answered (run : ImportRun) (v : json) : Prop :=
  ∃ fullText text,
    extractText run = Returned fullText ∧ trim fullText ≠ "" ∧
    generateContent run fullText = Returned text ∧
    JSON_parse run (stripFence (trim text)) = Returned v.

(** The ways a run fails, each with what is thrown. *)
Inductive importFails (run : ImportRun) : thrown → Prop :=
  | fails_extraction e :
      extractText run = Thrown e → importFails run e
  | fails_no_text fullText :
      extractText run = Returned fullText → trim fullText = "" →
      importFails run (ErrorObject "Could not extract any text from the PDF.")
  | fails_service fullText e :
      extractText run = Returned fullText → trim fullText ≠ "" →
      generateContent run fullText = Thrown e → importFails run e
  | fails_parse fullText text e :
      extractText run = Returned fullText → trim fullText ≠ "" →
      generateContent run fullText = Returned text →
      JSON_parse run (stripFence (trim text)) = Thrown e → importFails run e
  | fails_not_object v :
      answered run v → isObjectValue v = false →
      importFails run (ErrorObject "AI response is not a valid JSON object.")
  | fails_reports_not_array v :
      answered run v → isObjectValue v = true →
      (∀ parsedReports, getProp v "reports" ≠ Some (JArr parsedReports)) →
      importFails run
        (ErrorObject "AI did not return a valid array of reports in the 'reports' key.")
  | fails_null_report v parsedReports :
      answered run v → isObjectValue v = true →
      getProp v "reports" = Some (JArr parsedReports) → JNull ∈ parsedReports →
      importFails run
        (ErrorObject "Cannot read properties of null (reading 'status')")
  | fails_stock_not_object v parsedReports :
      answered run v → isObjectValue v = true →
      getProp v "reports" = Some (JArr parsedReports) → JNull ∉ parsedReports →
      (∀ parsedStock, getProp v "stock" = Some parsedStock →
                      isObjectValue parsedStock = false) →
      importFails run
        (ErrorObject "AI did not return a valid object in the 'stock' key.").

(** The one way it succeeds: the answer [v] passes every check, with the
    array [parsedReports] under its key [reports] and the object
    [parsedStock] under its key [stock]. *)
Definition validated (run : ImportRun) (v : json) (parsedReports : list json)
    (parsedStock : json) : Prop :=
  answered run v ∧ isObjectValue v = true ∧
  getProp v "reports" = Some (JArr parsedReports) ∧ (JNull ∉ parsedReports) ∧
  getProp v "stock" = Some parsedStock ∧ isObjectValue parsedStock = true.

(** Quantities at 0 and both dates of every entry kept: what the ledger
    table says of the bulk clear, for one state. *)
Definition clearKeepsDates (st : AppState) : Prop :=
  ∀ item si, stock st !! item = Some si →
    ∃ si', stock (handleConfirmClearStock st) !! item = Some si' ∧
           quantity si' = 0%Z ∧
           lastInDate si' = lastInDate si ∧ lastOutDate si' = lastOutDate si.

(** ** Sample data *)

Definition sampleForm (requested : gmap string Z) (s : Status) : FormData :=
  mkFormData "Dara" "Main Campus" "2024-03-13" "2024-03-15" requested s.

Definition sampleState (rs : list Report) (fd : FormData) (sel : option string)
    (s : gmap string StockItem) : AppState :=
  mkAppState rs fd sel s s false false false.

(** Stock [Pen: 5]; the form asks for ten pens, Done. *)
Definition tenPens : AppState :=
  sampleState [] (sampleForm {["Pen" := 10%Z]} Done) None
              {["Pen" := mkStockItem 5 "2024-03-01" "" 5]}.

(** A Done report with [Bk: 2], selected and edited to [Bk: 5], still
    Done; stock [Bk: 10]. *)
Definition moreBooks : AppState :=
  sampleState [mkReport "r1" (sampleForm {["Bk" := 2%Z]} Done)]
              (sampleForm {["Bk" := 5%Z]} Done) (Some "r1")
              {["Bk" := mkStockItem 10 "2024-03-01" "2024-03-02" (-2)]}.

(** A Done report with [Card: 4], selected; stock [Card: 1]. *)
Definition fourCards : AppState :=
  sampleState [mkReport "r1" (sampleForm {["Card" := 4%Z]} Done)]
              (sampleForm {["Card" := 4%Z]} Done) (Some "r1")
              {["Card" := mkStockItem 1 "2024-03-01" "2024-03-02" (-4)]}.

(** A Done report that names an item the stock has no entry for. *)
Definition ghostItem : AppState :=
  sampleState [mkReport "r1" (sampleForm {["Ghost" := 3%Z]} Done)]
              (sampleForm {["Ghost" := 3%Z]} Done) (Some "r1")
              {["Card" := mkStockItem 1 "2024-03-01" "2024-03-02" (-4)]}.

(** An answer of the service whose only report holds a zero quantity. *)
Definition zeroQuantityPayload : json :=
  JObj [("reports",
         JArr [JObj [("requesterName", JStr "Dara");
                     ("campus", JStr "Main Campus");
                     ("importDate", JStr "2024-03-13");
                     ("exportDate", JStr "2024-03-15");
                     ("items", JObj [("Bk", JNum 0)]);
                     ("status", JStr "Done")]]);
        ("stock", JObj [("Bk", JObj [("quantity", JNum 7);
                                     ("lastInDate", JStr "2024-03-01")])])].

Definition zeroQuantityRun : ImportRun :=
  mkImportRun (Returned "Stationary Report Dara Main Campus Bk (0)")
              (λ _, Returned "the answer of the service")
              (λ _, Returned zeroQuantityPayload)
              (λ _, "2024-03-13T08:00:00.000Z")
              (λ k, "0." +:+ pretty k).

(** ** Further readings of the ledger *)

(** No entry of a stock table is below zero. *)
Definition stockNonNegative (s : gmap string StockItem) : Prop :=
  map_Forall (λ _ si, 0 ≤ quantity si)%Z s.

(** The stock, the editing copy of the stock, the draft and the reports, all
    without a negative quantity. *)
Definition ledgerInvariant (st : AppState) : Prop :=
  stockNonNegative (stock st) ∧ stockNonNegative (tempStock st) ∧
  itemsInvariant st.

(** A session in which each event says whether the effect that copies the
    stock into the editing copy runs after it. *)
Definition runRendered (session : list (string * Event * bool)) (st : AppState)
    : AppState :=
  foldl (λ s (e : string * Event * bool),
           let s' := (handle e.1.1 e.1.2 s).1 in
           if e.2 then syncTempStock s' else s')
        st session.



(** ** Names a plain object inherits *)

(** The properties of [Object.prototype] (ECMA-262, annex B included). A
    plain object answers to these names without holding them, so
    [object[name] || 0] does not read 0 for them, and an assignment to
    [__proto__] creates no key. *)
Definition inheritedNames : list string :=
  ["constructor"; "hasOwnProperty"; "isPrototypeOf"; "propertyIsEnumerable";
   "toLocaleString"; "toString"; "valueOf"; "__proto__";
   "__defineGetter__"; "__defineSetter__"; "__lookupGetter__";
   "__lookupSetter__"].

(** [object[name] || 0] on a plain object of numbers: the number the object
    holds under the name, 0 when it holds none; [None] when the name is
    then found on [Object.prototype], where what is read is no number. *)
Definition readOr0 (object : gmap string Z) (name : string) : option Z :=
  match object !! name with
  | Some q => Some q
  | None => if bool_decide (name ∈ inheritedNames) then None else Some 0%Z
  end.

(** ** What is written to local storage *)

(** [JSON.stringify] of a stock entry, parsed again. *)
Definition storedStockItem (si : StockItem) : json :=
  JObj [("quantity", JNum (quantity si));
        ("lastInDate", JStr (lastInDate si));
        ("lastOutDate", JStr (lastOutDate si));
        ("lastUpdateQuantity", JNum (lastUpdateQuantity si))].

(** [JSON.parse(JSON.stringify(stock))]: what the initialiser of [stock]
    reads after the effect on [stock] has written it. *)
Definition storedStock (s : gmap string StockItem) : json :=
  JObj (map_to_list (storedStockItem <$> s)).

(** ** Reports read back from local storage *)

(** The loop that turns the [string[]] of an old report, and of an old
    draft, into a counted map:
    [newItems[item] = (newItems[item] || 0) + 1]. [None]: the loop read a
    member of [Object.prototype], and what it built is no map of
    numbers. *)
Definition countedItems (names : list string) : option (gmap string Z) :=
  foldl (λ newItems item,
           m ← newItems; count ← readOr0 m item;
           Some (<[item := (count + 1)%Z]> m))
        (Some ∅) names.

(** The same loop on names plain objects do not inherit, where every
    reading is a number. *)
Definition countedOwn (names : list string) : gmap string Z :=
  foldl (λ newItems item, <[item := (qty newItems item + 1)%Z]> newItems) ∅ names.

(** ** Summaries *)

(** [calculateTotalItems]: [None] is a missing [items], [inl] the old
    array of names, [inr] the map. *)
Definition calculateTotalItems (items : option (list string + gmap string Z)) : Z :=
  match items with
  | None => 0%Z
  | Some (inl names) => Z.of_nat (length names)
  | Some (inr m) => foldl (λ sum quantity, (sum + quantity)%Z) 0%Z (map_to_list m).*2
  end.

(** The inner loop of [itemCounts] and of [calculateItemCounts]:
    [acc[item] = (acc[item] || 0) + (Number(quantity) || 0)]. [None]: the
    loop read a member of [Object.prototype], and what it built is no map
    of numbers. *)
Definition addItemCounts (acc : option (gmap string Z)) (report : Report)
    : option (gmap string Z) :=
  foldl (λ acc (e : string * Z),
           m ← acc; count ← readOr0 m e.1;
           Some (<[e.1 := (count + e.2)%Z]> m))
        acc (map_to_list (items (fields report))).

(** [calculateItemCounts] of [handleExportPDF]; [itemCounts] is the same
    reduction over the filtered reports. *)
Definition calculateItemCounts (rs : list Report) : option (gmap string Z) :=
  foldl addItemCounts (Some ∅) rs.





(** ** Filtering by date *)

(** The [dateMatch] of [filteredReports]. A comparison with an invalid
    date is false. *)
Definition dateMatch (selectedWeek selectedMonth importDate : string) : bool :=
  if negb (blank selectedWeek)
  then
    match newDate selectedWeek, newDate importDate with
    | Some startOfWeek, Some reportDate =>
        let endOfWeek := setDate startOfWeek (getDate startOfWeek + 7) in
        (localDay startOfWeek <=? localDay reportDate)%Z
        && (localDay reportDate <? localDay endOfWeek)%Z
    | _, _ => false
    end
  else if negb (blank selectedMonth)
  then String.prefix selectedMonth importDate
  else true.

(** ** The list of months *)

(** The order of [Array.prototype.sort] without a comparator, on strings. *)
Definition stringLe (a b : string) : Prop := String.leb a b = true.

#[global] Instance stringLe_dec a b : Decision (stringLe a b).
Proof. unfold stringLe. apply _. Defined.

(** [availableMonths]: the ['YYYY-MM'] prefixes of the import dates, each
    once, sorted and reversed. *)
Definition availableMonths (rs : list Report) : list string :=
  reverse
    (merge_sort stringLe
       (remove_dups
          (omap (λ r, if blank (importDate (fields r)) then None
                      else Some (substring 0 7 (importDate (fields r))))
                rs))).

(** What the import writes for a stock entry, in one predicate: no date
    of last exit, no last delta, and never the placeholder ['N/A'] as a
    date. *)
Definition freshlyImported (si : StockItem) : Prop :=
  lastOutDate si = "" ∧ lastUpdateQuantity si = 0%Z ∧ lastInDate si ≠ "N/A".

(** ** Numerals *)

(** A text that begins with a decimal digit. *)
Definition beginsWithDigit (s : string) : Prop :=
  match s with
  | String c _ => ∃ d, (d < 10)%N ∧ c = pretty_N_char d
  | EmptyString => False
  end.

(** Every character of a text passes a test. *)
Fixpoint allOf (p : ascii → bool) (s : string) : bool :=
  match s with
  | String c r => p c && allOf p r
  | EmptyString => true
  end.

(** ** More sample data *)

(** Stock [Pen: 5]; the form asks for three pens, Done. *)
Definition threePens : AppState :=
  sampleState [] (sampleForm {["Pen" := 3%Z]} Done) None
              {["Pen" := mkStockItem 5 "2024-03-01" "" 5]}.



(** A report in Process, selected, with the name of the requester erased
    from the form. *)
Definition namelessDraft : AppState :=
  sampleState [mkReport "r1" (sampleForm {["Pen" := 3%Z]} Process)]
              (mkFormData "" "Main Campus" "2024-03-13" "2024-03-15"
                          {["Pen" := 3%Z]} Process)
              (Some "r1")
              {["Pen" := mkStockItem 5 "2024-03-01" "" 5]}.

(** A session that creates a Done report, edits the stock by hand, puts
    the report back to Process and deletes it. *)
Definition sampleSession : list (string * Event * bool) :=
  [("2024-03-13", AddReport "2024-03-13T08:00:00.000Z", true);
   ("2024-03-13", EditStock, true);
   ("2024-03-13", TempStockChange "Pen" "-7", false);
   ("2024-03-13", SaveStock, true);
   ("2024-03-14", SelectReport 0, false);
   ("2024-03-14", InputChange StatusInput "Process", false);
   ("2024-03-14", UpdateReport, true);
   ("2024-03-15", SelectReport 0, false);
   ("2024-03-15", DeleteReport, false);
   ("2024-03-15", ConfirmDelete, true)].

(** A stored stock in the three shapes the initialiser knows. *)
Definition oldStorage : json :=
  JObj [("Pen", JNum 42);
        ("Bk", JObj [("quantity", JNum 7); ("dateAdded", JStr "2023-11-05");
                     ("lastOutDate", JStr "2023-12-01")]);
        ("Card", JObj [("quantity", JNum 3); ("lastInDate", JStr "2024-01-09")])].


(** ** The range in which numbers are integers *)

(** [Number.MAX_SAFE_INTEGER], 2^53 - 1: up to this bound every integer
    is a double, and [parseInt] reads a numeral as the integer it
    spells. *)
Definition MAX_SAFE_INTEGER : Z := 9007199254740991.

(** A text [parseInt] reads without rounding: it spells no number, or a
    number within the bound. *)
Definition readExactly (value : string) : Prop :=
  (Z.abs (default 0 (integerPrefix value)) ≤ MAX_SAFE_INTEGER)%Z.

(** ** A session of the stock editor *)

(** Quantities typed in the stock editor, one after the other, then Save. *)
Definition committed (today : string) (edits : list (string * string))
    (st : AppState) : AppState :=
  (handle today SaveStock
     (run ((λ e : string * string, (today, TempStockChange e.1 e.2)) <$> edits) st)).1.

(** What the specification says of the manual edit, for one state and one
    series of entries: typing and saving cannot drive a stock quantity
    negative. *)
Definition editNeverNegative (today : string) (edits : list (string * string))
    (st : AppState) : Prop :=
  stockNonNegative (stock st) → stockNonNegative (stock (committed today edits st)).

(** ** Answers that fit the declared types

    The prompt of the import asks for texts and numbers, and [Report]
    declares them; the import itself checks shapes only. The typed reading
    of an entry of the answer is given here as a relation: it is the
    reading under which [reportOf] is the object literal of the source. *)

(** [v || ''] at the declared type [string]: the text [v] is, or the empty
    text for a value JavaScript counts as false ([undefined], [null],
    [false], [0], ['']). *)
Definition readsText (v : option json) (s : string) : Prop :=
  v = Some (JStr s) ∨ (truthy v = false ∧ s = "").

(** [item.items] at the declared type [Record<string, number>]: an object
    whose members are numbers, kept as it is; anything that is not an
    object (or is an array) gives the empty map. *)
Definition readsItems (v : option json) (m : gmap string Z) : Prop :=
  (∃ entries : list (string * Z),
     v = Some (JObj ((λ e : string * Z, (e.1, JNum e.2)) <$> entries)) ∧
     NoDup entries.*1 ∧ m = list_to_map entries) ∨
  ((∀ members, v ≠ Some (JObj members)) ∧ m = ∅).

(** An entry of [reports] that reads as the fields [fd]. *)
Definition fitsReport (item : json) (fd : FormData) : Prop :=
  item ≠ JNull ∧
  readsText (getProp item "requesterName") (requesterName fd) ∧
  readsText (getProp item "campus") (campus fd) ∧
  readsText (getProp item "importDate") (importDate fd) ∧
  readsText (getProp item "exportDate") (exportDate fd) ∧
  readsItems (getProp item "items") (items fd) ∧
  (status fd = Done ↔ getProp item "status" = Some (JStr "Done")).

(** ** Time zones

    [toISOString] prints a date in universal time. The zone of the browser
    is a parameter: [offset] minutes east of Greenwich, the same all year. *)

#[local] Open Scope Z_scope.

(** The day, counted from 1970-01-01 in universal time, in which the local
    midnight of a date falls: the time value is
    [localDay * 1440 - offset] minutes. *)
Definition utcDay (offset : Z) (date : Date) : Z :=
  (localDay date * 1440 - offset) / 1440.

Fixpoint zeros (n : nat) : string :=
  match n with
  | O => ""%string
  | S n => String "0" (zeros n)
  end.

(** [String(n).padStart(width, '0')] *)
Definition padStart (width : nat) (n : Z) : string :=
  (zeros (width - String.length (pretty n)) +:+ pretty n)%string.

(** The year of the ISO format: four digits from 0 to 9999, a sign and six
    digits otherwise. *)
Definition isoYear (y : Z) : string :=
  if ((0 <=? y) && (y <=? 9999))%Z then padStart 4 y
  else ((if (y <? 0)%Z then "-" else "+") +:+ padStart 6 (Z.abs y))%string.

(** [date.toISOString().split('T')[0]] *)
Definition toISODate (offset : Z) (date : Date) : string :=
  let ymd := civilFromDays (utcDay offset date) in
  (isoYear ymd.1.1 +:+ "-" +:+ padStart 2 ymd.1.2 +:+ "-" +:+ padStart 2 ymd.2)%string.

Definition monthShort (m : Z) : string :=
  nth (Z.to_nat (m - 1))
      ["Jan"; "Feb"; "Mar"; "Apr"; "May"; "Jun";
       "Jul"; "Aug"; "Sep"; "Oct"; "Nov"; "Dec"]%string ""%string.

(** [date.toLocaleDateString('en-US', { month: 'short', day: 'numeric',
    year: 'numeric' })], for the years of the common era. *)
Definition toLocaleDateString (date : Date) : string :=
  let ymd := civilFromDays (localDay date) in
  (monthShort ymd.1.2 +:+ " " +:+ pretty ymd.2 +:+ ", " +:+ pretty ymd.1.1)%string.

#[local] Open Scope string_scope.

(** ** The list of weeks *)

(** The body of the loop of [availableWeeks] for one import date: the key
    [startOfWeekISO] and the label; [None] when [toISOString] throws its
    [RangeError] on an invalid date, which the [catch] ignores. *)
Definition weekOf (offset : Z) (importDate : string) : option (string * string) :=
  startOfWeek ← getStartOfWeek importDate;
  Some (toISODate offset startOfWeek,
        "Week of " +:+ toLocaleDateString startOfWeek).

(** [availableWeeks]: the [Map] keeps the first label of a key and the
    order of insertion; the entries are then sorted by key, descending. On
    these keys, digits and hyphens, [localeCompare] is the order of the
    characters. *)
Definition availableWeeks (offset : Z) (selectedMonth : string)
    (reports : list Report) : list (string * string) :=
  let reportsToProcess :=
    if blank selectedMonth then reports
    else List.filter (λ r, String.prefix selectedMonth (importDate (fields r)))
                     reports in
  let weeks :=
    foldl (λ (weeks : list (string * string)) report,
             if blank (importDate (fields report)) then weeks
             else match weekOf offset (importDate (fields report)) with
                  | Some week =>
                      if bool_decide (week.1 ∈ weeks.*1) then weeks
                      else (weeks ++ [week])%list
                  | None => weeks
                  end)
          [] reportsToProcess in
  merge_sort (λ a b : string * string, stringLe b.1 a.1) weeks.

(** ** Sample data of the editor, of the import and of the weeks *)

(** An answer without a report, with one stock entry. *)
Definition stockAnswer (quantity : Z) : json :=
  JObj [("reports", JArr []);
        ("stock", JObj [("Bk", JObj [("quantity", JNum quantity);
                                     ("lastInDate", JStr "2024-03-01")])])].

Definition stockRun (quantity : Z) : ImportRun :=
  mkImportRun (Returned "Current Stock Inventory Bk")
              (λ _, Returned "the answer of the service")
              (λ _, Returned (stockAnswer quantity))
              (λ _, "2024-03-13T08:00:00.000Z")
              (λ k, "0." +:+ pretty k).

(** The editor is opened on a stock that an import left with a negative
    quantity, and a second import replaces the stock while the editor is
    open: the editing copy still holds [Bk: -5], the stock [Bk: 5]. *)
Definition staleEditor : AppState :=
  runRendered [("2024-03-13", PdfImport (Some (stockRun (-5))), true);
               ("2024-03-13", EditStock, true);
               ("2024-03-14", PdfImport (Some (stockRun 5)), true)]
              (firstState ["Bk"] ["Card"] "2024-03-13").

(** A file without text. *)
Definition blankRun : ImportRun :=
  mkImportRun (Returned "  ")
              (λ _, Returned "the answer of the service")
              (λ _, Returned JNull)
              (λ _, "2024-03-13T08:00:00.000Z")
              (λ k, "0." +:+ pretty k).

(** One report imported on a Wednesday. *)
Definition wednesdayReport : Report :=
  mkReport "r1" (mkFormData "Dara" "Main Campus" "2024-03-13" "2024-03-15"
                            {["Bk" := 2%Z]} Done).

(** Indochina Time, seven hours east of Greenwich, in minutes. *)
Definition indochinaTime : Z := 420.
(** * Verification *)

(** ** The ledger loops *)

Section ledger_loops.
Context {A : Type} (key : A → string) (g : A → StockItem → StockItem).

Implicit Types (s : gmap string StockItem) (l : list A).

#[local] Abbreviation sweep := (sweep key g).

Lemma lookup_touch (f : StockItem → StockItem) item s k :
  touch f item s !! k = if decide (item = k) then f <$> s !! k else s !! k.
Proof.
  unfold touch. destruct (s !! item) as [si|] eqn:Hsi.
  - rewrite lookup_insert. destruct (decide (item = k)) as [<-|]; [|done].
    by rewrite Hsi.
  - destruct (decide (item = k)) as [<-|]; [|done]. by rewrite Hsi.
Qed.

Lemma dom_touch (f : StockItem → StockItem) item s :
  dom (touch f item s) = dom s.
Proof.
  apply set_eq. intros k. rewrite !elem_of_dom, lookup_touch.
  destruct (decide (item = k)); [|done]. by rewrite fmap_is_Some.
Qed.

Lemma sweep_cons x l s : sweep (x :: l) s = sweep l (touch (g x) (key x) s).
Proof. reflexivity. Qed.

Lemma dom_sweep l s : dom (sweep l s) = dom s.
Proof.
  revert s. induction l as [|x l IH]; intros s; [done|].
  rewrite sweep_cons, IH. apply dom_touch.
Qed.

Lemma lookup_sweep_other l s k :
  k ∉ key <$> l → sweep l s !! k = s !! k.
Proof.
  revert s. induction l as [|x l IH]; intros s Hk; [done|].
  rewrite fmap_cons, not_elem_of_cons in Hk. destruct Hk as [Hx Hl].
  rewrite sweep_cons, (IH _ Hl), lookup_touch. by case_decide.
Qed.

Lemma lookup_sweep_elem l s x :
  NoDup (key <$> l) → x ∈ l → sweep l s !! key x = g x <$> s !! key x.
Proof.
  revert s. induction l as [|y l IH]; intros s Hnd Hx; [by apply elem_of_nil in Hx|].
  rewrite fmap_cons in Hnd. apply NoDup_cons in Hnd as [Hy Hnd].
  apply elem_of_cons in Hx as [->|Hx]; rewrite sweep_cons.
  - rewrite (lookup_sweep_other _ _ _ Hy), lookup_touch. by case_decide.
  - rewrite (IH _ Hnd Hx), lookup_touch. case_decide as Heq; [|done].
    exfalso. apply Hy. rewrite Heq. by apply list_elem_of_fmap_2.
Qed.
End ledger_loops.

Lemma elem_of_keys (m : gmap string Z) item :
  item ∈ (map_to_list m).*1 ↔ is_Some (m !! item).
Proof.
  rewrite list_elem_of_fmap. split.
  - intros [[k q] [-> Hkq]]. apply elem_of_map_to_list in Hkq. by exists q.
  - intros [q Hq]. exists (item, q). split; [done|]. by apply elem_of_map_to_list.
Qed.

Lemma lookup_deductItems today requested s k :
  deductItems today requested s !! k =
    match requested !! k with
    | Some q => takeOut today q <$> s !! k
    | None => s !! k
    end.
Proof.
  unfold deductItems.
  change (foldl _ s ?l) with (sweep fst (λ e : string * Z, takeOut today e.2) l s).
  destruct (requested !! k) as [q|] eqn:Hk.
  - apply elem_of_map_to_list in Hk.
    apply (lookup_sweep_elem fst (λ e : string * Z, takeOut today e.2) _ s (k, q));
      [apply NoDup_fst_map_to_list|done].
  - apply lookup_sweep_other. rewrite elem_of_keys, Hk. by intros [? ?].
Qed.

Lemma lookup_addBackItems today returned s k :
  addBackItems today returned s !! k =
    match returned !! k with
    | Some q => putBack today q <$> s !! k
    | None => s !! k
    end.
Proof.
  unfold addBackItems.
  change (foldl _ s ?l) with (sweep fst (λ e : string * Z, putBack today e.2) l s).
  destruct (returned !! k) as [q|] eqn:Hk.
  - apply elem_of_map_to_list in Hk.
    apply (lookup_sweep_elem fst (λ e : string * Z, putBack today e.2) _ s (k, q));
      [apply NoDup_fst_map_to_list|done].
  - apply lookup_sweep_other. rewrite elem_of_keys, Hk. by intros [? ?].
Qed.

Lemma elem_of_allItems originalItems updatedItems item :
  item ∈ allItems originalItems updatedItems ↔
  is_Some (originalItems !! item) ∨ is_Some (updatedItems !! item).
Proof.
  unfold allItems. rewrite elem_of_remove_dups, elem_of_app.
  by rewrite !elem_of_keys.
Qed.

Lemma applyDelta_0 today si : applyDelta today 0 si = si.
Proof. reflexivity. Qed.

Lemma lookup_applyDeltas today originalItems updatedItems s k :
  applyDeltas today originalItems updatedItems s !! k =
    applyDelta today (qty originalItems k - qty updatedItems k) <$> s !! k.
Proof.
  unfold applyDeltas.
  change (foldl _ s ?l) with
    (sweep (λ item : string, item) (λ item, applyDelta today (qty originalItems item - qty updatedItems item)) l s).
  destruct (decide (k ∈ allItems originalItems updatedItems)) as [Hin|Hout].
  - rewrite (lookup_sweep_elem (λ item : string, item)
               (λ item, applyDelta today (qty originalItems item - qty updatedItems item))
               _ s k); [done| |done].
    rewrite list_fmap_id. apply NoDup_remove_dups.
  - rewrite lookup_sweep_other by (by rewrite list_fmap_id).
    rewrite elem_of_allItems in Hout.
    assert (originalItems !! k = None ∧ updatedItems !! k = None) as [Ho Hu].
    { split; apply eq_None_not_Some; tauto. }
    unfold qty. rewrite Ho, Hu. cbn.
    by destruct (s !! k).
Qed.

(** ** The stock check *)

Lemma elem_of_insufficientFor stock requested sf :
  sf ∈ insufficientFor stock requested ↔
  requested !! sfItem sf = Some (sfRequested sf) ∧
  sfAvailable sf = available stock (sfItem sf) ∧
  (sfAvailable sf < sfRequested sf)%Z.
Proof.
  unfold insufficientFor. rewrite list_elem_of_omap. split.
  - intros [[item q] [Hin Hsf]]. apply elem_of_map_to_list in Hin.
    cbn in Hsf. case_bool_decide; [|done]. by simplify_eq/=.
  - intros (Hreq & Hav & Hlt). destruct sf as [item q a]; cbn in *.
    exists (item, q). split; [by apply elem_of_map_to_list|].
    cbn. subst a. by rewrite bool_decide_eq_true_2.
Qed.

Lemma elem_of_insufficientForDelta stock originalItems updatedItems sf :
  sf ∈ insufficientForDelta stock originalItems updatedItems ↔
  sfRequested sf = (qty updatedItems (sfItem sf) - qty originalItems (sfItem sf))%Z ∧
  (0 < sfRequested sf)%Z ∧
  sfAvailable sf = available stock (sfItem sf) ∧
  (sfAvailable sf < sfRequested sf)%Z.
Proof.
  unfold insufficientForDelta. rewrite list_elem_of_omap. split.
  - intros [item [Hin Hsf]]. cbn in Hsf.
    repeat case_bool_decide; simplify_eq/=; done.
  - intros (Hreq & Hpos & Hav & Hlt). destruct sf as [item d a]; cbn in *.
    exists item. split.
    + apply elem_of_allItems. unfold qty in Hreq.
      destruct (updatedItems !! item), (originalItems !! item); cbn in *;
        eauto; lia.
    + subst d a. by rewrite !bool_decide_eq_true_2.
Qed.

Lemma fmap_nil_iff {A B} (f : A → B) (l : list A) : f <$> l = [] ↔ l = [].
Proof. by destruct l. Qed.

Lemma selectedReport_Some st original :
  selectedReport st = Some original →
  ∃ sel, selectedReportId st = Some sel ∧ blank sel = false ∧
         findReport (reports st) sel = Some original.
Proof.
  unfold selectedReport. destruct (selectedReportId st) as [sel|]; [|done].
  cbn. destruct (blank sel) eqn:Hb; [done|]. intros H. by exists sel.
Qed.

Lemma handleUpdateReport_selected today st original :
  selectedReport st = Some original →
  handleUpdateReport today st =
    let insufficientItems :=
      updateInsufficientItems (stock st) (fields original) (formData st) in
    if bool_decide (insufficientItems = [])
    then
      (clearForm
         (set_reports
            ((λ r, if bool_decide (Some (id r) = selectedReportId st)
                   then overwrite r (formData st) else r) <$> reports st)
            (set_stock
               (reconcileUpdate today (fields original) (formData st) (stock st))
               st)), [])
    else (st, [Alert (updateRefusal insufficientItems)]).
Proof.
  intros (sel & Hsel & Hb & Hfind)%selectedReport_Some.
  unfold handleUpdateReport. rewrite Hsel, Hb, Hfind. cbn zeta.
  case_bool_decide; [|done]. do 3 f_equal.
  apply list_fmap_ext. intros _ r _.
  destruct (decide (id r = sel)) as [->|Hne].
  - by rewrite !bool_decide_eq_true_2.
  - rewrite !bool_decide_eq_false_2; [done|congruence|done].
Qed.


(** ** Reconciliation on update and delete *)

Lemma updateShortfalls_nil_accepts today st original :
  selectedReport st = Some original →
  updateShortfalls (stock st) (fields original) (formData st) = [] →
  handle today UpdateReport st =
    (clearForm
       (set_reports
          ((λ r, if bool_decide (Some (id r) = selectedReportId st)
                 then overwrite r (formData st) else r) <$> reports st)
          (set_stock
             (reconcileUpdate today (fields original) (formData st) (stock st))
             st)), []).
Proof.
  intros Hsel Hnil. cbn. rewrite (handleUpdateReport_selected _ _ _ Hsel). cbn zeta.
  rewrite bool_decide_eq_true_2; [done|].
  unfold updateInsufficientItems. rewrite Hnil.
  by destruct (status (fields original)), (status (formData st)).
Qed.


Lemma handleConfirmDelete_selected today st r :
  selectedReport st = Some r →
  stock (handleConfirmDelete today st).1 =
    match status (fields r) with
    | Done => addBackItems today (items (fields r)) (stock st)
    | Process => stock st
    end.
Proof.
  intros (sel & Hsel & Hb & Hfind)%selectedReport_Some.
  unfold handleConfirmDelete. rewrite Hsel, Hb, Hfind. cbn.
  by destruct (status (fields r)).
Qed.


(** ** Keys of the stock *)

Lemma dom_deductItems today requested s :
  dom (deductItems today requested s) = dom s.
Proof. apply (dom_sweep fst (λ e : string * Z, takeOut today e.2)). Qed.

Lemma dom_addBackItems today returned s :
  dom (addBackItems today returned s) = dom s.
Proof. apply (dom_sweep fst (λ e : string * Z, putBack today e.2)). Qed.

Lemma dom_applyDeltas today originalItems updatedItems s :
  dom (applyDeltas today originalItems updatedItems s) = dom s.
Proof.
  apply (dom_sweep (λ item : string, item)
           (λ item, applyDelta today (qty originalItems item - qty updatedItems item))).
Qed.

Lemma dom_reconcileUpdate today original updated s :
  dom (reconcileUpdate today original updated s) = dom s.
Proof.
  unfold reconcileUpdate. destruct (status original), (status updated);
    auto using dom_deductItems, dom_addBackItems, dom_applyDeltas.
Qed.

Lemma addBackItems_skips_absent today returned s item :
  s !! item = None →
  addBackItems today returned s = addBackItems today (delete item returned) s.
Proof.
  intros Hnone. apply map_eq. intros k. rewrite !lookup_addBackItems.
  destruct (decide (k = item)) as [->|Hne].
  - rewrite lookup_delete_eq, Hnone. by destruct (returned !! item).
  - by rewrite lookup_delete_ne.
Qed.

(** C10. Creating, updating and deleting a report never change the set of
    keys of the stock: an entry is rewritten only where one exists, and an
    item of the report without an entry is passed over. When a Done report
    naming such an item is deleted, the stock that results is the one the
    deletion would give had the report not named the item at all. *)
Theorem lifecycle_keeps_stock_keys today ev st :
  isLifecycle ev = true →
  let st' := (handle today ev st).1 in
  dom (stock st') = dom (stock st) ∧
  ∀ item, stock st !! item = None →
    stock st' !! item = None ∧
    ∀ r, ev = ConfirmDelete → selectedReport st = Some r →
         status (fields r) = Done →
         stock st' = addBackItems today (delete item (items (fields r))) (stock st).
Proof.
  intros Hev st'.
  assert (Hdom : dom (stock st') = dom (stock st)).
  { subst st'. destruct ev; try discriminate Hev; cbn.
    - unfold handleAddReport.
      destruct (blank _ || _ || _ || _); [done|].
      destruct (status (formData st)); [done|]. cbn zeta.
      case_bool_decide; [|done]. cbn. apply dom_deductItems.
    - unfold handleUpdateReport.
      destruct (selectedReportId st) as [sel|]; [|done].
      destruct (blank sel); [done|].
      destruct (findReport (reports st) sel) as [original|]; [|done]. cbn zeta.
      case_bool_decide; [|done]. cbn. apply dom_reconcileUpdate.
    - unfold handleConfirmDelete.
      destruct (selectedReportId st) as [sel|]; [|done].
      destruct (blank sel); [done|]. cbn.
      destruct (findReport (reports st) sel) as [r|]; [|done].
      destruct (status (fields r)); [done|]. cbn. apply dom_addBackItems. }
  split; [done|]. intros item Hnone. split.
  - apply not_elem_of_dom. rewrite Hdom. by apply not_elem_of_dom.
  - intros r -> Hsel Hdone. subst st'. cbn.
    rewrite (handleConfirmDelete_selected _ _ _ Hsel), Hdone.
    by apply addBackItems_skips_absent.
Qed.

(** ** Bulk clear *)

Lemma lookup_foldl_insert_fun {V} (f : string → V) (l : list string)
    (acc : gmap string V) k :
  foldl (λ m key, <[key := f key]> m) acc l !! k =
    if decide (k ∈ l) then Some (f k) else acc !! k.
Proof.
  revert acc. induction l as [|x l IH]; intros acc; cbn.
  - by rewrite decide_False by apply not_elem_of_nil.
  - rewrite IH. destruct (decide (k ∈ l)) as [Hin|Hout].
    + by rewrite decide_True by (by right).
    + destruct (decide (k = x)) as [->|Hne].
      * rewrite decide_True by left. apply lookup_insert_eq.
      * rewrite decide_False by (rewrite elem_of_cons; tauto).
        by rewrite lookup_insert_ne.
Qed.

Lemma lookup_clearedStock (s : gmap string StockItem) k :
  clearedStock s !! k = (λ _, emptyStockItem) <$> s !! k.
Proof.
  unfold clearedStock.
  rewrite (lookup_foldl_insert_fun (λ _, emptyStockItem)), lookup_empty.
  destruct (s !! k) as [si|] eqn:Hk.
  - rewrite decide_True; [done|].
    apply list_elem_of_fmap. exists (k, si). split; [done|].
    by apply elem_of_map_to_list.
  - rewrite decide_False; [done|].
    rewrite list_elem_of_fmap. intros [[k' si] [Heq Hin]]. cbn in Heq. subst k'.
    apply elem_of_map_to_list in Hin. congruence.
Qed.

(** C4, as stated, fails: the bulk clear empties the dates of an entry
    that had some. *)
Lemma bulk_clear_keeps_dates_counterexample : ¬ clearKeepsDates moreBooks.
Proof.
  intros H.
  destruct (H "Bk" (mkStockItem 10 "2024-03-01" "2024-03-02" (-2)) eq_refl)
    as (si' & Hsi' & _ & Hin & _).
  vm_compute in Hsi'. injection Hsi' as <-. discriminate Hin.
Qed.

(** C4, amended. The bulk clear keeps the keys of the stock and replaces
    every entry by the empty one: quantity 0, [lastInDate] and
    [lastOutDate] the empty string, [lastUpdateQuantity] 0. *)
Theorem bulk_clear_resets_entries today st item :
  let st' := (handle today ConfirmClearStock st).1 in
  stock st' !! item = (λ _, mkStockItem 0 "" "" 0) <$> stock st !! item ∧
  reports st' = reports st.
Proof. cbn. split; [apply lookup_clearedStock|done]. Qed.

(** ** The items of a report *)

Lemma positiveItems_changeItemQuantity item value fd :
  positiveItems (items fd) → positiveItems (items (changeItemQuantity item value fd)).
Proof.
  intros Hpos. unfold changeItemQuantity, positiveItems. cbn.
  destruct (parseInt value) as [q|]; [case_bool_decide|].
  - by apply map_Forall_insert_2.
  - by apply map_Forall_delete.
  - by apply map_Forall_delete.
Qed.

Lemma itemsInvariant_handle today ev st :
  isPdfImport ev = false → itemsInvariant st → itemsInvariant (handle today ev st).1.
Proof.
  intros Hev [Hform Hreports].
  assert (Hempty : positiveItems (items initialFormData)) by apply map_Forall_empty.
  destruct ev; try discriminate Hev; cbn; try (by split).
  - destruct name; by split.
  - split; [by apply positiveItems_changeItemQuantity|done].
  - unfold handleAddReport.
    destruct (blank _ || _ || _ || _); [by split|].
    destruct (status (formData st)); cbn zeta; [|case_bool_decide]; cbn;
      try (by split); (split; [done|]); apply Forall_app; by repeat constructor.
  - destruct (reports st !! row) as [report|] eqn:Hrow; [|by split].
    split; [|done]. cbn.
    by eapply (proj1 (Forall_lookup _ _) Hreports).
  - unfold handleUpdateReport.
    destruct (selectedReportId st) as [sel|]; [|by split].
    destruct (blank sel); [by split|].
    destruct (findReport (reports st) sel) as [original|]; [|by split]. cbn zeta.
    case_bool_decide; [|by split]. cbn. split; [done|].
    apply Forall_fmap. eapply Forall_impl; [exact Hreports|].
    intros r Hr. cbn. by case_bool_decide.
  - unfold handleDeleteReport.
    destruct (selectedReportId st) as [sel|]; [|by split].
    by destruct (blank sel).
  - unfold handleConfirmDelete.
    destruct (selectedReportId st) as [sel|]; [|by split].
    destruct (blank sel); [by split|]. cbn. split; [done|].
    assert (Hsame : ∀ st1, reports st1 = reports st →
              Forall (λ r, positiveItems (items (fields r)))
                (List.filter (λ r, negb (bool_decide (id r = sel))) (reports st))).
    { intros _ _. apply Forall_forall. intros r Hr.
      apply list_elem_of_In, filter_In in Hr as [Hr _].
      apply list_elem_of_In in Hr.
      by eapply (proj1 (Forall_forall _ _) Hreports). }
    by apply (Hsame st).
Qed.



(** ** Manual stock editing *)

Lemma editedQuantity_nonneg value : (0 ≤ editedQuantity value)%Z.
Proof.
  unfold editedQuantity. destruct (parseInt value) as [q|]; [|done].
  case_bool_decide; lia.
Qed.

Lemma editedQuantity_coerced value :
  parseInt value = None ∨ (∃ q, parseInt value = Some q ∧ (q < 0)%Z) →
  editedQuantity value = 0%Z.
Proof.
  unfold editedQuantity. intros [->|(q & -> & Hq)]; [done|].
  by rewrite bool_decide_eq_true_2.
Qed.

Lemma typed_snoc edits e temp :
  typed (edits ++ [e]) temp = changeTempStock e.1 e.2 (typed edits temp).
Proof. unfold typed. by rewrite foldl_app. Qed.

Lemma lookup_typed edits temp item :
  (item ∉ edits.*1 → typed edits temp !! item = temp !! item) ∧
  (item ∈ edits.*1 →
     ∃ si value, (item, value) ∈ edits ∧ typed edits temp !! item = Some si ∧
                 quantity si = editedQuantity value).
Proof.
  induction edits as [|[i v] edits IH] using rev_ind.
  - split; [done|]. intros Hin. by apply elem_of_nil in Hin.
  - rewrite typed_snoc, fmap_app, elem_of_app. cbn.
    unfold changeTempStock. destruct (decide (item = i)) as [->|Hne].
    + split; [intros Hout; exfalso; apply Hout; right; by left|].
      intros _. eexists _, v. split; [apply elem_of_app; right; by left|].
      by rewrite lookup_insert_eq.
    + rewrite lookup_insert_ne by done. destruct IH as [IHout IHin]. split.
      * intros Hout. apply IHout. tauto.
      * intros [Hin|Hin]; [|apply list_elem_of_singleton in Hin; congruence].
        destruct (IHin Hin) as (si & value & Hmem & Hlook & Hq).
        exists si, value. split; [apply elem_of_app; by left|done].
Qed.

Lemma run_TempStockChange today edits st :
  run ((λ e : string * string, (today, TempStockChange e.1 e.2)) <$> edits) st =
    set_tempStock (typed edits (tempStock st)) st.
Proof.
  revert st. induction edits as [|e edits IH]; intros st.
  - by destruct st.
  - cbn. unfold run in IH. rewrite IH. by destruct st.
Qed.

Lemma lookup_savedStock today temp s k :
  savedStock today temp s !! k = savedEntry today s k <$> temp !! k.
Proof. unfold savedStock. rewrite map_lookup_imap. by destruct (temp !! k). Qed.

Lemma savedEntry_same today s k si : s !! k = Some si → savedEntry today s k si = si.
Proof.
  intros Hk. unfold savedEntry. rewrite Hk. cbn.
  rewrite bool_decide_eq_true_2 by lia. by destruct si.
Qed.

(** ** PDF import *)

Lemma not_object_check v :
  negb (truthy (Some v)) || negb (typeofObject (Some v)) = negb (isObjectValue v).
Proof. destruct v as [| [] | | | |]; cbn; try done; apply orb_true_r. Qed.

Lemma stock_check (parsedStock : option json) :
  negb (truthy parsedStock) || negb (typeofObject parsedStock) =
    match parsedStock with
    | Some v => negb (isObjectValue v)
    | None => true
    end.
Proof. destruct parsedStock as [v|]; [apply not_object_check|done]. Qed.

Lemma importedReports_null run k parsedReports :
  JNull ∈ parsedReports →
  importedReports run k parsedReports = throwError nullStatus.
Proof.
  revert k. induction parsedReports as [|item rest IH]; intros k Hin.
  - by apply elem_of_nil in Hin.
  - apply elem_of_cons in Hin as [<-|Hin]; [done|].
    cbn. destruct item; try done; cbn; by rewrite (IH _ Hin).
Qed.

Lemma importedReports_no_null run k parsedReports :
  JNull ∉ parsedReports →
  importedReports run k parsedReports =
    Returned (imap (λ i, reportOf run (k + i)) parsedReports).
Proof.
  revert k. induction parsedReports as [|item rest IH]; intros k Hnull; [done|].
  apply not_elem_of_cons in Hnull as [Hitem Hrest].
  cbn. assert (Hhead : importedReport run k item = Returned (reportOf run k item)).
  { by destruct item. }
  rewrite Hhead. cbn. rewrite (IH _ Hrest). cbn.
  unfold mret, outcome_ret. f_equal. rewrite Nat.add_0_r. f_equal.
  apply imap_ext. intros i x _. cbn. f_equal. lia.
Qed.

Lemma null_entry_dec (l : list json) : JNull ∈ l ∨ JNull ∉ l.
Proof.
  induction l as [|x l [IH|IH]].
  - right. apply not_elem_of_nil.
  - left. by right.
  - destruct x; try (right; apply not_elem_of_cons; by split).
    left. by left.
Qed.

Lemma requestPayload_answered run v :
  requestPayload run = Returned v ↔ answered run v.
Proof.
  unfold requestPayload, answered. split.
  - destruct (extractText run) as [fullText|e] eqn:Ht; [|done]. cbn.
    destruct (blank (trim fullText)) eqn:Hb; [done|].
    destruct (generateContent run fullText) as [text|e] eqn:Ha; [|done]. cbn.
    intros Hp. exists fullText, text. repeat split; try done.
    unfold blank in Hb. by apply bool_decide_eq_false in Hb.
  - intros (fullText & text & -> & Hb & Ha & Hp). cbn.
    unfold blank. rewrite bool_decide_eq_false_2 by done.
    by rewrite Ha.
Qed.

Lemma importFails_sound run e : importFails run e → importPayload run = Thrown e.
Proof.
  unfold importPayload.
  destruct 1 as [e He|t Ht Hb|t e Ht Hb Ha|t a e Ht Hb Ha Hp
                |v Hv Hobj|v Hv Hobj Hrs|v rs Hv Hobj Hrs Hnull
                |v rs Hv Hobj Hrs Hnull Hstock].
  - unfold requestPayload. by rewrite He.
  - unfold requestPayload. rewrite Ht. cbn. unfold blank.
    by rewrite bool_decide_eq_true_2.
  - unfold requestPayload. rewrite Ht. cbn. unfold blank.
    rewrite bool_decide_eq_false_2 by done. by rewrite Ha.
  - unfold requestPayload. rewrite Ht. cbn. unfold blank.
    rewrite bool_decide_eq_false_2 by done. rewrite Ha. cbn. by rewrite Hp.
  - apply requestPayload_answered in Hv. rewrite Hv. cbn.
    unfold validatePayload. by rewrite not_object_check, Hobj.
  - apply requestPayload_answered in Hv. rewrite Hv. cbn.
    unfold validatePayload. rewrite not_object_check, Hobj. cbn.
    destruct (getProp v "reports") as [[| | | |rs|]|] eqn:Hr; try done.
    by destruct (Hrs rs).
  - apply requestPayload_answered in Hv. rewrite Hv. cbn.
    unfold validatePayload. rewrite not_object_check, Hobj, Hrs. cbn.
    by rewrite (importedReports_null _ _ _ Hnull).
  - apply requestPayload_answered in Hv. rewrite Hv. cbn.
    unfold validatePayload. rewrite not_object_check, Hobj, Hrs. cbn.
    rewrite (importedReports_no_null _ _ _ Hnull). cbn.
    rewrite stock_check. destruct (getProp v "stock") as [sv|] eqn:Hs; [|done].
    by rewrite (Hstock sv eq_refl).
Qed.

(** ** Stock read back from local storage *)

Lemma lookup_initialStock (ROW1 ROW2 : list string) today savedStock item :
  initialStock ROW1 ROW2 today savedStock !! item =
    if decide (item ∈ (ROW1 ++ ROW2)%list)
    then Some (migrateStockItem today (getProp savedStock item))
    else None.
Proof.
  unfold initialStock.
  rewrite (lookup_foldl_insert_fun
             (λ item, migrateStockItem today (getProp savedStock item))).
  rewrite lookup_empty.
  destruct (decide (item ∈ (ROW1 ++ ROW2)%list)) as [Hin|Hout].
  - by rewrite decide_True by (by apply elem_of_remove_dups).
  - by rewrite decide_False by (by rewrite elem_of_remove_dups).
Qed.

(** C8. When the stock is read back from local storage, the entry of a
    catalogue item stored as a bare number [n] becomes
    [{quantity: n, lastInDate: today, lastOutDate: '', lastUpdateQuantity: 0}]. *)
Theorem bare_number_is_upgraded (ROW1 ROW2 : list string) today savedStock item n :
  item ∈ (ROW1 ++ ROW2)%list →
  getProp savedStock item = Some (JNum n) →
  initialStock ROW1 ROW2 today savedStock !! item = Some (mkStockItem n today "" 0).
Proof.
  intros Hin Hsaved. rewrite lookup_initialStock, decide_True by done.
  by rewrite Hsaved.
Qed.

(** ** Weeks *)

Lemma year_of_era_bounds doe :
  (0 ≤ doe ≤ 146096)%Z →
  let yoe := ((doe - doe / 1460 + doe / 36524 - doe / 146096) / 365)%Z in
  (0 ≤ yoe ≤ 399)%Z ∧ (0 ≤ doe - (365 * yoe + yoe / 4 - yoe / 100) ≤ 365)%Z.
Proof. intros H. cbv zeta. Z.to_euclidean_division_equations; lia. Qed.

Lemma month_index_bounds doy :
  (0 ≤ doy ≤ 365)%Z → (0 ≤ (5 * doy + 2) / 153 ≤ 11)%Z.
Proof. intros H. Z.to_euclidean_division_equations; lia. Qed.

Lemma daysFromCivil_day year month day :
  daysFromCivil year month day = (daysFromCivil year month 1 + day - 1)%Z.
Proof. unfold daysFromCivil. lia. Qed.

(** The day number of the civil date of a day number is that number. *)
Lemma daysFromCivil_civilFromDays z :
  daysFromCivil (civilFromDays z).1.1 (civilFromDays z).1.2 (civilFromDays z).2 = z.
Proof.
  unfold civilFromDays.
  set (z' := (z + 719468)%Z).
  set (era := (z' / 146097)%Z).
  set (doe := (z' - era * 146097)%Z).
  assert (Hdoe : (0 ≤ doe ≤ 146096)%Z).
  { subst doe era. Z.to_euclidean_division_equations; lia. }
  pose proof (year_of_era_bounds doe Hdoe) as Hy. cbv zeta in Hy.
  set (yoe := ((doe - doe / 1460 + doe / 36524 - doe / 146096) / 365)%Z) in *.
  set (doy := (doe - (365 * yoe + yoe / 4 - yoe / 100))%Z) in *.
  destruct Hy as [Hyoe Hdoy].
  pose proof (month_index_bounds doy Hdoy) as Hmp.
  set (mp := ((5 * doy + 2) / 153)%Z) in *.
  cbn [fst snd]. unfold daysFromCivil.
  assert (Hera : ((yoe + era * 400) / 400 = era)%Z).
  { symmetry. apply Z.div_unique with yoe; lia. }
  destruct (Z.ltb_spec mp 10) as [Hlt|Hge].
  - replace (mp + 3 <=? 2)%Z with false by (symmetry; apply Z.leb_gt; lia).
    replace (2 <? mp + 3)%Z with true by (symmetry; apply Z.ltb_lt; lia).
    rewrite Hera. replace (mp + 3 - 3)%Z with mp by lia.
    replace (yoe + era * 400 - era * 400)%Z with yoe by lia.
    subst doy doe z'. lia.
  - replace (mp - 9 <=? 2)%Z with true by (symmetry; apply Z.leb_le; lia).
    replace (2 <? mp - 9)%Z with false by (symmetry; apply Z.ltb_ge; lia).
    replace (yoe + era * 400 + 1 - 1)%Z with (yoe + era * 400)%Z by lia.
    rewrite Hera. replace (mp - 9 + 9)%Z with mp by lia.
    replace (yoe + era * 400 - era * 400)%Z with yoe by lia.
    subst doy doe z'. lia.
Qed.

Lemma localDay_setDate date dt :
  localDay (setDate date dt) = (localDay date - getDate date + dt)%Z.
Proof.
  unfold setDate, getDate. cbn [localDay].
  pose proof (daysFromCivil_civilFromDays (localDay date)) as Hround.
  rewrite daysFromCivil_day in Hround. rewrite daysFromCivil_day. lia.
Qed.

(** In local time the week starts on a Monday: for a date string that
    names a day of the calendar, [getStartOfWeek] returns the day lying
    [dayOfWeek == 0 ? 6 : dayOfWeek - 1] days before it, Sunday being day
    0, and that day is a Monday: six days back from a Sunday, two days
    back from a Wednesday. *)
Lemma week_starts_on_monday dateString date :
  newDate dateString = Some date →
  ∃ start, getStartOfWeek dateString = Some start ∧
    localDay start = (localDay date - daysSinceMonday (getDay date))%Z ∧
    getDay start = 1%Z ∧
    (getDay date = 0%Z → localDay start = (localDay date - 6)%Z) ∧
    (getDay date = 3%Z → localDay start = (localDay date - 2)%Z).
Proof.
  intros Hdate. unfold getStartOfWeek. rewrite Hdate.
  cbn -[getDate getDay setDate daysSinceMonday].
  eexists. split; [done|].
  rewrite localDay_setDate. unfold daysSinceMonday.
  unfold getDay. rewrite localDay_setDate.
  generalize (getDate date) (localDay date). intros dom t.
  destruct (Z.eqb_spec ((t + 4) mod 7) 0) as [Hsun|Hweek].
  - repeat split; try (intros; Z.to_euclidean_division_equations; lia).
  - repeat split; try (intros; Z.to_euclidean_division_equations; lia).
Qed.

(** ** The properties on the sample data *)


Example ten_pens_refused :
  handle "2024-03-13" (AddReport "2024-03-13T08:00:00.000Z") tenPens =
    (tenPens,
     [Alert "Cannot add report. Insufficient stock for: Pen (requested 10, available 5)."]).
Proof. vm_compute. reflexivity. Qed.


Example more_books_taken :
  stock (handle "2024-03-20" UpdateReport moreBooks).1 !! "Bk" =
    Some (mkStockItem 7 "2024-03-01" "2024-03-20" (-3)).
Proof. vm_compute. reflexivity. Qed.



Lemma week_starts_on_monday_witness :
  ∃ start, getStartOfWeek "2024-03-10" = Some start ∧
    localDay start = (19792 - 6)%Z ∧ getDay start = 1%Z.
Proof.
  destruct (week_starts_on_monday "2024-03-10" (mkDate 19792))
    as (start & Hstart & _ & Hmonday & Hsunday & _).
  - vm_compute. reflexivity.
  - exists start. split; [exact Hstart|]. split; [|exact Hmonday].
    apply Hsunday. reflexivity.
Defined.

Example week_of_a_sunday :
  (λ d, civilFromDays (localDay d)) <$> getStartOfWeek "2024-03-10"
    = Some (2024, 3, 4)%Z.
Proof. vm_compute. reflexivity. Qed.

Example week_of_a_wednesday :
  (λ d, civilFromDays (localDay d)) <$> getStartOfWeek "2024-03-13"
    = Some (2024, 3, 11)%Z.
Proof. vm_compute. reflexivity. Qed.

Example week_across_a_year :
  (λ d, civilFromDays (localDay d)) <$> getStartOfWeek "2023-01-01"
    = Some (2022, 12, 26)%Z.
Proof. vm_compute. reflexivity. Qed.

Lemma bare_number_is_upgraded_witness :
  initialStock ["Bk"; "Pen"] ["Card"] "2024-03-13"
               (JObj [("Pen", JNum 42); ("Tape", JNum 3)]) !! "Pen"
    = Some (mkStockItem 42 "2024-03-13" "" 0).
Proof.
  apply bare_number_is_upgraded.
  - vm_compute. apply list_elem_of_In. right. left. reflexivity.
  - reflexivity.
Defined.

Example negative_entry_saved_as_zero :
  stock (handle "2024-03-20" SaveStock
           (run [("2024-03-20", TempStockChange "Bk" "12");
                 ("2024-03-20", TempStockChange "Bk" "-4")] moreBooks)).1 !! "Bk"
    = Some (mkStockItem 0 "2024-03-01" "2024-03-20" (-10)).
Proof. vm_compute. reflexivity. Qed.

Lemma lifecycle_keeps_stock_keys_witness :
  dom (stock (handle "2024-03-20" ConfirmDelete ghostItem).1) = dom (stock ghostItem) ∧
  stock (handle "2024-03-20" ConfirmDelete ghostItem).1 !! "Ghost" = None.
Proof.
  destruct (lifecycle_keeps_stock_keys "2024-03-20" ConfirmDelete ghostItem)
    as [Hdom Habsent].
  - reflexivity.
  - split; [exact Hdom|]. apply (Habsent "Ghost"). reflexivity.
Defined.

Example ghost_item_not_restored :
  stock (handle "2024-03-20" ConfirmDelete ghostItem).1 = stock ghostItem.
Proof. vm_compute. reflexivity. Qed.

Example zero_quantity_imported :
  (λ r, items (fields r)) <$>
    reports (handle "2024-03-13" (PdfImport (Some zeroQuantityRun))
               (firstState ["Bk"] ["Card"] "2024-03-13")).1
    = [{["Bk" := 0%Z]}].
Proof. vm_compute. reflexivity. Qed.

Example import_replaces_stock :
  stock (handle "2024-03-13" (PdfImport (Some zeroQuantityRun))
           (firstState ["Bk"] ["Card"] "2024-03-13")).1
    = {["Bk" := mkStockItem 7 "2024-03-01" "" 0]}.
Proof. vm_compute. reflexivity. Qed.

(** * Beyond the listed properties *)

(** ** Accepted transitions *)

Lemma insufficientFor_nil stock requested item q :
  insufficientFor stock requested = [] → requested !! item = Some q →
  (q ≤ available stock item)%Z.
Proof.
  intros Hnil Hq. destruct (decide (available stock item < q)%Z) as [Hlt|]; [|lia].
  assert (Hin : mkShortfall item q (available stock item) ∈ insufficientFor stock requested)
    by (by apply elem_of_insufficientFor).
  rewrite Hnil in Hin. by apply elem_of_nil in Hin.
Qed.

Lemma insufficientForDelta_nil stock originalItems updatedItems item :
  insufficientForDelta stock originalItems updatedItems = [] →
  (0 < qty updatedItems item - qty originalItems item)%Z →
  (qty updatedItems item - qty originalItems item ≤ available stock item)%Z.
Proof.
  intros Hnil Hpos.
  destruct (decide (available stock item
                    < qty updatedItems item - qty originalItems item)%Z) as [Hlt|]; [|lia].
  assert (Hin : mkShortfall item (qty updatedItems item - qty originalItems item)
                  (available stock item)
                ∈ insufficientForDelta stock originalItems updatedItems)
    by (by apply elem_of_insufficientForDelta).
  rewrite Hnil in Hin. by apply elem_of_nil in Hin.
Qed.






(** ** No negative stock *)

Lemma available_lookup (s : gmap string StockItem) item si :
  s !! item = Some si → available s item = quantity si.
Proof. unfold available. by intros ->. Qed.

Lemma findReport_elem rs sel r : findReport rs sel = Some r → r ∈ rs ∧ id r = sel.
Proof.
  unfold findReport. intros Hfind. apply find_some in Hfind as [Hin Hid].
  split; [by apply list_elem_of_In|]. by apply bool_decide_eq_true in Hid.
Qed.

Lemma stockNonNegative_deductItems today requested s :
  stockNonNegative s → insufficientFor s requested = [] →
  stockNonNegative (deductItems today requested s).
Proof.
  intros Hs Hnil item si'. rewrite lookup_deductItems.
  destruct (requested !! item) as [q|] eqn:Hq; [|apply Hs].
  destruct (s !! item) as [si|] eqn:Hsi; [|done]. intros [= <-]. cbn.
  pose proof (insufficientFor_nil _ _ _ _ Hnil Hq) as Hle.
  rewrite (available_lookup _ _ _ Hsi) in Hle. lia.
Qed.

Lemma stockNonNegative_addBackItems today returned s :
  stockNonNegative s → positiveItems returned →
  stockNonNegative (addBackItems today returned s).
Proof.
  intros Hs Hpos item si'. rewrite lookup_addBackItems.
  destruct (returned !! item) as [q|] eqn:Hq; [|apply Hs].
  destruct (s !! item) as [si|] eqn:Hsi; [|done]. intros [= <-]. cbn.
  pose proof (Hs _ _ Hsi) as Hge. pose proof (Hpos _ _ Hq) as Hq0. cbn in *. lia.
Qed.

Lemma stockNonNegative_applyDeltas today originalItems updatedItems s :
  stockNonNegative s → insufficientForDelta s originalItems updatedItems = [] →
  stockNonNegative (applyDeltas today originalItems updatedItems s).
Proof.
  intros Hs Hnil item si'. rewrite lookup_applyDeltas.
  destruct (s !! item) as [si|] eqn:Hsi; [|done]. intros [= <-].
  pose proof (Hs _ _ Hsi) as Hge. cbn in Hge.
  pose proof (insufficientForDelta_nil _ _ _ item Hnil) as Hle.
  rewrite (available_lookup _ _ _ Hsi) in Hle.
  unfold applyDelta. repeat case_bool_decide; cbn; lia.
Qed.

Lemma stockNonNegative_changeTempStock item value temp :
  stockNonNegative temp → stockNonNegative (changeTempStock item value temp).
Proof.
  intros Ht. unfold changeTempStock. apply map_Forall_insert_2; [|done].
  cbn. apply editedQuantity_nonneg.
Qed.

Lemma stockNonNegative_savedStock today temp s :
  stockNonNegative temp → stockNonNegative (savedStock today temp s).
Proof.
  intros Ht item si'. rewrite lookup_savedStock.
  destruct (temp !! item) as [edited|] eqn:He; [|done]. intros [= <-].
  pose proof (Ht _ _ He) as Hge. cbn in Hge.
  unfold savedEntry. by repeat case_bool_decide.
Qed.

Lemma stockNonNegative_clearedStock s : stockNonNegative (clearedStock s).
Proof.
  intros item si'. rewrite lookup_clearedStock.
  destruct (s !! item); [|done]. by intros [= <-].
Qed.

Lemma ledgerInvariant_handle today ev st :
  isPdfImport ev = false → ledgerInvariant st → ledgerInvariant (handle today ev st).1.
Proof.
  intros Hev (Hs & Ht & Hitems).
  pose proof (itemsInvariant_handle today ev st Hev Hitems) as Hitems'.
  destruct Hitems as [Hform Hreports].
  split; [|split; [|done]]; clear Hitems'.
  - destruct ev; try discriminate Hev; cbn; try done.
    + unfold handleAddReport. destruct (blank _ || _ || _ || _); [done|].
      destruct (status (formData st)); cbn zeta; [done|].
      case_bool_decide as Hnil; [|done]. cbn.
      apply stockNonNegative_deductItems; [done|]. by apply fmap_nil_iff in Hnil.
    + by destruct (reports st !! row).
    + unfold handleUpdateReport.
      destruct (selectedReportId st) as [sel|]; [|done].
      destruct (blank sel); [done|].
      destruct (findReport (reports st) sel) as [original|] eqn:Hfind; [|done].
      cbn zeta. case_bool_decide as Hnil; [|done]. cbn.
      apply findReport_elem in Hfind as [Hin _].
      pose proof (proj1 (Forall_forall _ _) Hreports _ Hin) as Hpos. cbn in Hpos.
      unfold updateInsufficientItems, updateShortfalls in Hnil.
      unfold reconcileUpdate.
      destruct (status (fields original)), (status (formData st));
        apply fmap_nil_iff in Hnil.
      * done.
      * by apply stockNonNegative_deductItems.
      * by apply stockNonNegative_addBackItems.
      * by apply stockNonNegative_applyDeltas.
    + unfold handleDeleteReport. destruct (selectedReportId st) as [sel|]; [|done].
      by destruct (blank sel).
    + unfold handleConfirmDelete.
      destruct (selectedReportId st) as [sel|]; [|done].
      destruct (blank sel); [done|]. cbn.
      destruct (findReport (reports st) sel) as [r|] eqn:Hfind; [|done].
      apply findReport_elem in Hfind as [Hin _].
      pose proof (proj1 (Forall_forall _ _) Hreports _ Hin) as Hpos. cbn in Hpos.
      destruct (status (fields r)); [done|]. cbn.
      by apply stockNonNegative_addBackItems.
    + by apply stockNonNegative_savedStock.
    + apply stockNonNegative_clearedStock.
  - destruct ev; try discriminate Hev; cbn; try done.
    + unfold handleAddReport. destruct (blank _ || _ || _ || _); [done|].
      destruct (status (formData st)); cbn zeta; [done|].
      by case_bool_decide.
    + by destruct (reports st !! row).
    + unfold handleUpdateReport.
      destruct (selectedReportId st) as [sel|]; [|done].
      destruct (blank sel); [done|].
      destruct (findReport (reports st) sel) as [original|]; [|done].
      cbn zeta. by case_bool_decide.
    + unfold handleDeleteReport. destruct (selectedReportId st) as [sel|]; [|done].
      by destruct (blank sel).
    + unfold handleConfirmDelete.
      destruct (selectedReportId st) as [sel|]; [|done].
      destruct (blank sel); [done|]. cbn.
      destruct (findReport (reports st) sel) as [r|]; [|done].
      by destruct (status (fields r)).
    + by apply stockNonNegative_changeTempStock.
Qed.

Lemma ledgerInvariant_syncTempStock st :
  ledgerInvariant st → ledgerInvariant (syncTempStock st).
Proof.
  intros (Hs & Ht & Hitems). unfold syncTempStock.
  destruct (isEditingStock st); [done|]. by split.
Qed.

(** X4. Along a session without a PDF import, whether or not the editing
    copy is brought in line with the stock after an event, a stock that has
    no negative quantity never gets one, provided the draft and the reports
    hold positive quantities only and the editing copy has no negative
    quantity either: creations and updates are refused before they take
    more than there is, returns only add, and the stock editor stores no
    negative number. *)
Theorem stock_never_negative session st :
  forallb (λ e : string * Event * bool, negb (isPdfImport e.1.2)) session = true →
  ledgerInvariant st →
  ledgerInvariant (runRendered session st).
Proof.
  revert st. induction session as [|[[today ev] sync] session IH]; intros st Hsession Hinv.
  - done.
  - cbn in Hsession. apply andb_true_iff in Hsession as [Hev Hsession].
    apply negb_true_iff in Hev. apply (IH _ Hsession). cbn.
    pose proof (ledgerInvariant_handle today ev st Hev Hinv) as Hnext.
    destruct sync; [by apply ledgerInvariant_syncTempStock|done].
Qed.

(** ** Reports and stock together *)


Lemma findReport_cons r rs sel :
  findReport (r :: rs) sel = if bool_decide (id r = sel) then Some r else findReport rs sel.
Proof. reflexivity. Qed.

Lemma findReport_None rs sel : sel ∉ id <$> rs → findReport rs sel = None.
Proof.
  induction rs as [|r rs IH]; [done|]. rewrite fmap_cons, not_elem_of_cons.
  intros [Hne Hrs]. rewrite findReport_cons, bool_decide_eq_false_2 by done. auto.
Qed.

Lemma findReport_NoDup rs r :
  NoDup (id <$> rs) → r ∈ rs → findReport rs (id r) = Some r.
Proof.
  induction rs as [|r' rs IH]; intros Hnd Hin; [by apply elem_of_nil in Hin|].
  rewrite fmap_cons in Hnd. apply NoDup_cons in Hnd as [Hr' Hnd].
  rewrite findReport_cons. apply elem_of_cons in Hin as [->|Hin].
  - by rewrite bool_decide_eq_true_2.
  - rewrite bool_decide_eq_false_2; [auto|].
    intros Heq. apply Hr'. rewrite Heq. by apply list_elem_of_fmap_2.
Qed.











Lemma omap_all_None {A B} (f : A → option B) (l : list A) :
  (∀ x, f x = None) → omap f l = [].
Proof. intros Hf. induction l as [|x l IH]; cbn; [done|]. by rewrite Hf. Qed.

Lemma overwritten_same (rs : list Report) r :
  NoDup (id <$> rs) → r ∈ rs →
  (λ r', if bool_decide (id r' = id r) then overwrite r' (fields r) else r') <$> rs = rs.
Proof.
  intros Hnd Hin. rewrite <- (list_fmap_id rs) at 2.
  apply list_fmap_ext. intros i r' Hr'. cbn. case_bool_decide as Hid; [|done].
  apply list_elem_of_lookup_2 in Hr'.
  pose proof (findReport_NoDup _ _ Hnd Hr') as Hf'.
  pose proof (findReport_NoDup _ _ Hnd Hin) as Hf.
  rewrite Hid, Hf in Hf'. injection Hf' as ->. by destruct r'.
Qed.

(** X7. Selecting a report in the table and saving it without a change is
    void: when the identifiers of the reports are pairwise distinct, no
    alert is raised, and the list of reports and the whole stock, dates
    included, stay as they are. *)
Theorem select_then_update_is_void today st row report :
  reports st !! row = Some report →
  NoDup (id <$> reports st) →
  id report ≠ "" →
  let st1 := (handle today (SelectReport row) st).1 in
  handle today UpdateReport st1 =
    (clearForm st1, []) ∧
  reports (handle today UpdateReport st1).1 = reports st ∧
  stock (handle today UpdateReport st1).1 = stock st.
Proof.
  intros Hrow Hnd Hid st1. subst st1. cbn [handle fst]. rewrite Hrow.
  assert (Hin : report ∈ reports st) by (by eapply list_elem_of_lookup_2).
  assert (Hsel : selectedReport (handleSelectReport report st) = Some report).
  { unfold selectedReport, handleSelectReport. cbn. unfold blank.
    rewrite (bool_decide_eq_false_2 _ Hid). by apply findReport_NoDup. }
  assert (Hnil : updateShortfalls (stock (handleSelectReport report st))
                   (fields report) (formData (handleSelectReport report st)) = []).
  { unfold updateShortfalls. cbn. destruct (status (fields report)); [done|].
    unfold insufficientForDelta. apply omap_all_None. intros item. cbn.
    rewrite bool_decide_eq_false_2 by lia. done. }
  pose proof (updateShortfalls_nil_accepts today _ _ Hsel Hnil) as Hrun.
  cbn [handle] in Hrun. rewrite Hrun. cbn.
  assert (Hstock : reconcileUpdate today (fields report) (fields report) (stock st)
                   = stock st).
  { unfold reconcileUpdate. destruct (status (fields report)); [done|].
    apply map_eq. intros item. rewrite lookup_applyDeltas, Z.sub_diag.
    by destruct (stock st !! item). }
  assert (Hreports :
    (λ r, if bool_decide (Some (id r) = Some (id report))
          then overwrite r (fields report) else r) <$> reports st = reports st).
  { rewrite <- (overwritten_same _ _ Hnd Hin) at 2.
    apply list_fmap_ext. intros _ r _.
    destruct (decide (id r = id report)) as [Heq|Hne].
    - by rewrite !bool_decide_eq_true_2 by congruence.
    - by rewrite !bool_decide_eq_false_2 by congruence. }
  by rewrite Hstock, Hreports.
Qed.

(** ** The stock editor *)

Lemma savedStock_same today s : savedStock today s s = s.
Proof.
  apply map_eq. intros item. rewrite lookup_savedStock.
  destruct (s !! item) as [si|] eqn:Hsi; [|done]. cbn.
  by rewrite (savedEntry_same _ _ _ _ Hsi).
Qed.

(** X8. Leaving the stock editor by Cancel throws the typed quantities
    away: whatever was typed, the editing copy is the stock again, and a
    save after that leaves every stock entry exactly as it was, dates and
    last delta included. *)
Theorem cancel_discards_edits today st edits :
  let st1 :=
    (handle today CancelEditStock
       (run ((λ e : string * string, (today, TempStockChange e.1 e.2)) <$> edits) st)).1 in
  tempStock st1 = stock st ∧ stock st1 = stock st ∧ isEditingStock st1 = false ∧
  stock (handle today SaveStock st1).1 = stock st.
Proof.
  cbn zeta. rewrite run_TempStockChange. cbn. repeat split.
  apply savedStock_same.
Qed.

Lemma dom_typed edits (temp : gmap string StockItem) :
  dom (typed edits temp) = dom temp ∪ list_to_set edits.*1.
Proof.
  induction edits as [|e edits IH] using rev_ind.
  - cbn. by rewrite (right_id_L ∅ (∪)).
  - rewrite typed_snoc. unfold changeTempStock. rewrite dom_insert_L, IH.
    rewrite fmap_app, list_to_set_app_L. cbn.
    by rewrite (right_id_L ∅ (∪)), (comm_L (∪) {[e.1]}), (assoc_L (∪)).
Qed.

(** X9. Unlike the reconciliation of reports, the stock editor can add
    keys: after a save, the stock has an entry for every item it had and
    for every item a quantity was typed for, and for no other. *)
Theorem save_stock_keys today st edits :
  tempStock st = stock st →
  let st' :=
    (handle today SaveStock
       (run ((λ e : string * string, (today, TempStockChange e.1 e.2)) <$> edits) st)).1 in
  dom (stock st') = dom (stock st) ∪ list_to_set edits.*1.
Proof.
  intros Hsync st'. subst st'. rewrite run_TempStockChange. cbn.
  rewrite <- Hsync, <- dom_typed. apply set_eq. intros item.
  rewrite !elem_of_dom, lookup_savedStock. by rewrite fmap_is_Some.
Qed.


(** ** Stock read back from local storage, continued *)

(** X11. When what local storage held parses to an object (nothing
    stored, or a text that does not parse, counts as the empty object),
    and no item of the catalogue is called [__proto__], the stock the page
    starts with has an entry for every item of the catalogue and for
    nothing else: stored entries of other names are dropped, and an item
    the stored object does not hold gets the empty entry. *)
Theorem initial_stock_keys (ROW1 ROW2 : list string) today members :
  "__proto__" ∉ (ROW1 ++ ROW2)%list →
  dom (initialStock ROW1 ROW2 today (JObj members))
    = list_to_set (ROW1 ++ ROW2)%list ∧
  ∀ item, item ∈ (ROW1 ++ ROW2)%list →
    getProp (JObj members) item = None →
    initialStock ROW1 ROW2 today (JObj members) !! item = Some emptyStockItem.
Proof.
  intros _. split.
  - apply set_eq. intros item. rewrite elem_of_dom, lookup_initialStock.
    rewrite elem_of_list_to_set.
    destruct (decide (item ∈ (ROW1 ++ ROW2)%list)); split; try done.
  - intros item Hin Hnone. rewrite lookup_initialStock, decide_True by done.
    by rewrite Hnone.
Qed.

Lemma getProp_map_to_list (m : gmap string json) item :
  getProp (JObj (map_to_list m)) item = m !! item.
Proof.
  unfold getProp. destruct (m !! item) as [v|] eqn:Hv.
  - pose proof (NoDup_fst_map_to_list m) as Hnd.
    apply elem_of_map_to_list in Hv.
    induction (map_to_list m) as [|[k w] l IH]; [by apply elem_of_nil in Hv|].
    rewrite fmap_cons in Hnd. apply NoDup_cons in Hnd as [Hk Hnd]. cbn.
    apply elem_of_cons in Hv as [Hv|Hv].
    + injection Hv as <- <-. by rewrite bool_decide_eq_true_2.
    + case_bool_decide as Heq; [|by apply IH]. cbn in Heq. subst k.
      exfalso. apply Hk. apply list_elem_of_fmap. by exists (item, v).
  - destruct (List.find _ _) as [[k w]|] eqn:Hfind; [|done].
    apply find_some in Hfind as [Hin Hk]. apply bool_decide_eq_true in Hk.
    cbn in Hk. subst k. apply list_elem_of_In, elem_of_map_to_list in Hin. congruence.
Qed.

Lemma migrateStockItem_stored today si :
  migrateStockItem today (Some (storedStockItem si)) = si.
Proof.
  assert (Htext : ∀ t, textOr "" (Some (JStr t)) = t).
  { intros t. unfold textOr, blank. by case_bool_decide. }
  destruct si as [q i o u]. unfold storedStockItem, migrateStockItem.
  cbv beta iota.
  change (hasProp _ "dateAdded") with false.
  change (hasProp _ "quantity") with true.
  change (hasProp _ "lastInDate") with true.
  change (getProp _ "quantity") with (Some (JNum q)).
  change (getProp _ "lastInDate") with (Some (JStr i)).
  change (getProp _ "lastOutDate") with (Some (JStr o)).
  change (getProp _ "lastUpdateQuantity") with (Some (JNum u)).
  cbn [andb numberOr0]. by rewrite !Htext.
Qed.

(** X12. Reading back the stock the page stored gives the stock again:
    when the keys of the stock are the items of the catalogue, the
    initialiser applied to what was written returns that very stock, and
    the day of the reading plays no part. *)
Theorem stored_stock_round_trip (ROW1 ROW2 : list string) today s :
  dom s = list_to_set (ROW1 ++ ROW2)%list →
  initialStock ROW1 ROW2 today (storedStock s) = s.
Proof.
  intros Hdom. apply map_eq. intros item. rewrite lookup_initialStock.
  unfold storedStock. rewrite getProp_map_to_list, lookup_fmap.
  destruct (decide (item ∈ (ROW1 ++ ROW2)%list)) as [Hin|Hout].
  - assert (is_Some (s !! item)) as [si Hsi].
    { apply elem_of_dom. rewrite Hdom. by apply elem_of_list_to_set. }
    rewrite Hsi.
    change (Some (migrateStockItem today (Some (storedStockItem si))) = Some si).
    by rewrite migrateStockItem_stored.
  - symmetry. apply not_elem_of_dom. rewrite Hdom. by rewrite elem_of_list_to_set.
Qed.

(** ** Old reports *)

Lemma countedOwn_snoc names item :
  countedOwn (names ++ [item]) =
    <[item := (qty (countedOwn names) item + 1)%Z]> (countedOwn names).
Proof. unfold countedOwn. by rewrite foldl_app. Qed.

Lemma qty_countedOwn names item :
  qty (countedOwn names) item = Z.of_nat (length (filter (λ x, x = item) names)).
Proof.
  induction names as [|x names IH] using rev_ind; [done|].
  rewrite countedOwn_snoc, filter_app, length_app. unfold qty at 1.
  destruct (decide (x = item)) as [->|Hne].
  - rewrite lookup_insert_eq, IH, filter_cons_True by done.
    rewrite filter_nil. cbn. lia.
  - rewrite lookup_insert_ne by done. fold (qty (countedOwn names) item).
    rewrite IH, filter_cons_False by done.
    rewrite filter_nil. cbn. lia.
Qed.

Lemma countedOwn_key names item :
  is_Some (countedOwn names !! item) ↔ item ∈ names.
Proof.
  induction names as [|x names IH] using rev_ind.
  - split; [by intros [? ?]|]. intros Hin. by apply elem_of_nil in Hin.
  - rewrite countedOwn_snoc, elem_of_app, list_elem_of_singleton.
    destruct (decide (x = item)) as [->|Hne].
    + rewrite lookup_insert_eq. split; eauto.
    + rewrite lookup_insert_ne by done. rewrite IH. split; [tauto|].
      intros [?|?]; [done|congruence].
Qed.

Lemma countedOwn_occurrences names item :
  countedOwn names !! item =
    (if decide (item ∈ names)
     then Some (Z.of_nat (length (filter (λ x, x = item) names)))
     else None) ∧
  positiveItems (countedOwn names).
Proof.
  assert (Hlookup : countedOwn names !! item =
    if decide (item ∈ names)
    then Some (Z.of_nat (length (filter (λ x, x = item) names))) else None).
  { pose proof (qty_countedOwn names item) as Hq.
    pose proof (countedOwn_key names item) as Hk.
    destruct (decide (item ∈ names)) as [Hin|Hout].
    - apply Hk in Hin as [q Hq']. unfold qty in Hq. rewrite Hq' in *. cbn in Hq.
      by rewrite Hq.
    - apply eq_None_not_Some. tauto. }
  split; [done|]. clear item Hlookup. intros item q Hq.
  pose proof (qty_countedOwn names item) as Hcount.
  unfold qty in Hcount. rewrite Hq in Hcount. cbn in Hcount.
  assert (Hin : item ∈ names) by (apply countedOwn_key; eauto).
  assert (Hfil : item ∈ filter (λ x, x = item) names) by (by apply list_elem_of_filter).
  destruct (filter (λ x, x = item) names); [by apply elem_of_nil in Hfil|].
  cbn in Hcount. lia.
Qed.

Lemma foldl_add_foldr (l : list Z) (z : Z) :
  foldl (λ sum quantity, (sum + quantity)%Z) z l = (z + foldr Z.add 0%Z l)%Z.
Proof. revert z. induction l as [|x l IH]; intros z; cbn; [lia|]. rewrite IH. lia. Qed.

Lemma foldr_add_permutation (l1 l2 : list Z) :
  l1 ≡ₚ l2 → foldr Z.add 0%Z l1 = foldr Z.add 0%Z l2.
Proof. induction 1; cbn; lia. Qed.

Lemma total_insert (m : gmap string Z) item q :
  calculateTotalItems (Some (inr (<[item := q]> m))) =
    (calculateTotalItems (Some (inr m)) - qty m item + q)%Z.
Proof.
  assert (Hfresh : ∀ m' : gmap string Z, m' !! item = None → ∀ v,
    calculateTotalItems (Some (inr (<[item := v]> m'))) =
      (calculateTotalItems (Some (inr m')) + v)%Z).
  { intros m' Hnone v. cbn. rewrite !foldl_add_foldr.
    rewrite (foldr_add_permutation _ (v :: (map_to_list m').*2)); [cbn; lia|].
    by rewrite (map_to_list_insert _ _ _ Hnone). }
  unfold qty. destruct (m !! item) as [old|] eqn:Hold.
  - rewrite <- (insert_delete_eq m item q).
    rewrite Hfresh by apply lookup_delete_eq.
    rewrite <- (insert_delete_id m item old Hold) at 2.
    rewrite Hfresh by apply lookup_delete_eq. cbn -[calculateTotalItems]. lia.
  - rewrite Hfresh by done. cbn -[calculateTotalItems]. lia.
Qed.

Lemma countedOwn_total names :
  calculateTotalItems (Some (inr (countedOwn names))) =
    calculateTotalItems (Some (inl names)).
Proof.
  induction names as [|x names IH] using rev_ind; [done|].
  rewrite countedOwn_snoc, total_insert, IH. cbn. rewrite length_app. cbn. lia.
Qed.

(** ** Summaries *)









(** ** The week filter *)

Lemma newDate_not_blank dateString date :
  newDate dateString = Some date → blank dateString = false.
Proof.
  intros Hdate. unfold blank. apply bool_decide_eq_false_2. by intros ->.
Qed.

(** X17. The week filter and the list of weeks agree: when the selected
    week begins on a Monday, a report passes the date test exactly when
    its import date is a date whose week, as [getStartOfWeek] computes it,
    begins on that same day. The window of seven days is counted in days,
    across the end of a month or of a year; a report whose date does not
    parse is left out. *)
Theorem week_filter_is_week_start selectedWeek selectedMonth importDate monday :
  newDate selectedWeek = Some monday →
  getDay monday = 1%Z →
  dateMatch selectedWeek selectedMonth importDate = true ↔
  ∃ start, getStartOfWeek importDate = Some start ∧ localDay start = localDay monday.
Proof.
  intros Hweek Hmonday. unfold dateMatch, getStartOfWeek.
  rewrite (newDate_not_blank _ _ Hweek), Hweek. cbn [negb].
  destruct (newDate importDate) as [reportDate|]; cbn -[getDate getDay setDate];
    [|split; [done|by intros (? & ? & _)]].
  set (start := setDate reportDate _).
  assert (Hex : (∃ start', Some start = Some start' ∧ localDay start' = localDay monday)
                ↔ localDay start = localDay monday).
  { split; [by intros (? & [= <-] & ?)|]. intros ?. by exists start. }
  rewrite Hex. subst start.
  rewrite andb_true_iff, Z.leb_le, Z.ltb_lt, !localDay_setDate.
  unfold getDay in *.
  generalize dependent (localDay monday). intros m Hm.
  generalize (localDay reportDate) (getDate reportDate) (getDate monday).
  intros r dr dm.
  destruct (Z.eqb_spec ((r + 4) mod 7) 0); split; intros;
    Z.to_euclidean_division_equations; lia.
Qed.

(** ** The list of months *)

Lemma stringLe_trans : Transitive stringLe.
Proof.
  unfold stringLe, String.leb. intros s1.
  induction s1 as [|c1 s1 IH]; intros [|c2 s2] [|c3 s3]; cbn; try done.
  unfold Ascii.compare.
  destruct (N.compare_spec (N_of_ascii c1) (N_of_ascii c2)) as [H12|H12|H12];
    destruct (N.compare_spec (N_of_ascii c2) (N_of_ascii c3)) as [H23|H23|H23];
    destruct (N.compare_spec (N_of_ascii c1) (N_of_ascii c3)) as [H13|H13|H13];
    try done; try lia.
  apply IH.
Qed.

Lemma stringLe_total : Total stringLe.
Proof. intros a b. apply String.leb_total. Qed.

(** X19. The list of months offers each month once, the latest first:
    its entries are pairwise distinct, in descending order of the
    comparison of strings, and they are exactly the first seven characters
    of the non-empty import dates of the reports. *)
Theorem available_months_distinct_descending rs :
  NoDup (availableMonths rs) ∧
  StronglySorted (flip stringLe) (availableMonths rs) ∧
  ∀ month, month ∈ availableMonths rs ↔
    ∃ r, r ∈ rs ∧ importDate (fields r) ≠ "" ∧
         month = substring 0 7 (importDate (fields r)).
Proof.
  unfold availableMonths.
  set (months := remove_dups _).
  assert (Hperm : reverse (merge_sort stringLe months) ≡ₚ months).
  { by rewrite reverse_Permutation, merge_sort_Permutation. }
  split; [|split].
  - rewrite Hperm. apply NoDup_remove_dups.
  - apply Sorted_StronglySorted.
    + intros a b c Hab Hbc. unfold flip in *. by eapply stringLe_trans.
    + apply Sorted_reverse, Sorted_merge_sort, stringLe_total.
  - intros month. rewrite Hperm. subst months.
    rewrite elem_of_remove_dups, list_elem_of_omap. split.
    + intros (r & Hr & Hmonth). exists r. split; [done|].
      unfold blank in Hmonth. case_bool_decide; [done|]. by injection Hmonth as <-.
    + intros (r & Hr & Hdate & ->). exists r. split; [done|].
      unfold blank. by rewrite bool_decide_eq_false_2.
Qed.

(** ** Typing a quantity *)

Lemma digitValue_pretty_N_char (d : N) :
  (d < 10)%N → digitValue (pretty_N_char d) = Some (Z.of_N d).
Proof.
  intros Hd.
  assert (H : (d = 0 ∨ d = 1 ∨ d = 2 ∨ d = 3 ∨ d = 4 ∨ d = 5 ∨ d = 6 ∨ d = 7 ∨ d = 8 ∨ d = 9)%N) by lia.
  repeat (destruct H as [->|H]; [reflexivity|]). by subst.
Qed.

Lemma isWhiteSpace_pretty_N_char (d : N) :
  (d < 10)%N → isWhiteSpace (pretty_N_char d) = false.
Proof.
  intros Hd.
  assert (H : (d = 0 ∨ d = 1 ∨ d = 2 ∨ d = 3 ∨ d = 4 ∨ d = 5 ∨ d = 6 ∨ d = 7 ∨ d = 8 ∨ d = 9)%N) by lia.
  repeat (destruct H as [->|H]; [reflexivity|]). by subst.
Qed.

Lemma pretty_N_go_digits (x : N) :
  (0 < x)%N → ∀ s,
  beginsWithDigit (pretty_N_go x s) ∧
  leadingDigits None (pretty_N_go x s) = leadingDigits (Some (Z.of_N x)) s.
Proof.
  induction (N.lt_wf_0 x) as [x _ IH]. intros Hx s.
  rewrite pretty_N_go_step by done.
  assert (Hd : (x `mod` 10 < 10)%N) by (apply N.mod_lt; lia).
  destruct (decide (x `div` 10 = 0)%N) as [Hz|Hnz].
  - rewrite Hz, pretty_N_go_0. split; [by exists (x `mod` 10)%N|].
    cbn. rewrite (digitValue_pretty_N_char _ Hd). cbn.
    do 2 f_equal. pose proof (N.div_mod x 10). lia.
  - destruct (IH (x `div` 10)%N) with (s := String (pretty_N_char (x `mod` 10)) s)
      as [Hbegin Hread].
    + apply N.div_lt; lia.
    + by apply N.neq_0_lt_0.
    + split; [done|]. rewrite Hread. cbn.
      rewrite (digitValue_pretty_N_char _ Hd). cbn.
      do 2 f_equal. pose proof (N.div_mod x 10). lia.
Qed.

Lemma integerPrefix_beginsWithDigit s :
  beginsWithDigit s → integerPrefix s = leadingDigits None s.
Proof.
  destruct s as [|c r]; [done|]. intros (d & Hd & ->).
  unfold integerPrefix. cbn [trimStart]. rewrite isWhiteSpace_pretty_N_char by done.
  assert (H : (d = 0 ∨ d = 1 ∨ d = 2 ∨ d = 3 ∨ d = 4 ∨ d = 5 ∨ d = 6 ∨ d = 7 ∨ d = 8 ∨ d = 9)%N) by lia.
  repeat (destruct H as [->|H]; [reflexivity|]). by subst.
Qed.

Lemma integerPrefix_pretty_N (x : N) : integerPrefix (pretty x) = Some (Z.of_N x).
Proof.
  unfold pretty, pretty_N. case_decide as Hx; [by subst|].
  destruct (pretty_N_go_digits x) with (s := "") as [Hbegin Hread]; [lia|].
  by rewrite (integerPrefix_beginsWithDigit _ Hbegin), Hread.
Qed.

Lemma integerPrefix_pretty_Z (n : Z) : integerPrefix (pretty n) = Some n.
Proof.
  destruct n as [|p|p].
  - done.
  - change (pretty (Z.pos p)) with (pretty (N.pos p)).
    rewrite integerPrefix_pretty_N. done.
  - change (pretty (Z.neg p)) with ("-" +:+ pretty (N.pos p)).
    unfold pretty, pretty_N. rewrite decide_False by done.
    destruct (pretty_N_go_digits (N.pos p)) with (s := "") as [_ Hread]; [lia|].
    unfold integerPrefix.
    change (trimStart ("-" +:+ pretty_N_go (N.pos p) ""))
      with (String "-" (pretty_N_go (N.pos p) "")).
    cbv beta iota. rewrite Hread. done.
Qed.

Lemma toDouble_safe (n : Z) :
  (Z.abs n ≤ MAX_SAFE_INTEGER)%Z → toDouble n = n.
Proof.
  intros Hn. unfold toDouble, MAX_SAFE_INTEGER in *.
  destruct (Z.leb_spec (Z.abs n) (2 ^ 53)) as [_|Hbig]; [done|]. lia.
Qed.

Lemma parseInt_pretty_Z (n : Z) :
  (Z.abs n ≤ MAX_SAFE_INTEGER)%Z → parseInt (pretty n) = Some n.
Proof.
  intros Hn. unfold parseInt. rewrite integerPrefix_pretty_Z. cbn.
  by rewrite toDouble_safe.
Qed.

(** X20. Typing in the form the decimal numeral of a quantity that is
    within [MAX_SAFE_INTEGER], for an item that is not called
    [__proto__], stores that very quantity for the item when it is
    positive, and removes the entry of the item when it is zero or
    negative; the entries of the other items, the other fields of the
    draft, the reports and the stock are not touched. *)
Theorem item_entry_reads_numeral today st item q :
  item ≠ "__proto__" →
  (Z.abs q ≤ MAX_SAFE_INTEGER)%Z →
  let st' := (handle today (ItemQuantityChange item (pretty q)) st).1 in
  items (formData st') !! item = (if bool_decide (0 < q)%Z then Some q else None) ∧
  (∀ other, other ≠ item →
     items (formData st') !! other = items (formData st) !! other) ∧
  requesterName (formData st') = requesterName (formData st) ∧
  campus (formData st') = campus (formData st) ∧
  importDate (formData st') = importDate (formData st) ∧
  exportDate (formData st') = exportDate (formData st) ∧
  status (formData st') = status (formData st) ∧
  reports st' = reports st ∧ stock st' = stock st.
Proof.
  intros _ Hsafe.
  cbn. unfold changeItemQuantity. rewrite (parseInt_pretty_Z _ Hsafe). cbn.
  case_bool_decide; repeat split; intros;
    by rewrite ?lookup_insert_eq, ?lookup_delete_eq, ?lookup_insert_ne,
               ?lookup_delete_ne.
Qed.

(** X21. Typing in the stock editor the decimal numeral of a quantity
    that is within [MAX_SAFE_INTEGER], for an item whose name is not
    one plain objects inherit, sets the quantity of the item in the
    editing copy to it, or to 0 when it is negative, and keeps the dates
    and the last delta of the entry; an item the copy did not have gets an
    entry with empty dates; the other entries and the stock itself are not
    touched. *)
Theorem stock_entry_reads_numeral today st item q :
  item ∉ inheritedNames →
  (Z.abs q ≤ MAX_SAFE_INTEGER)%Z →
  let st' := (handle today (TempStockChange item (pretty q)) st).1 in
  let old := default emptyStockItem (tempStock st !! item) in
  tempStock st' !! item =
    Some (mkStockItem (Z.max 0 q) (lastInDate old) (lastOutDate old)
            (lastUpdateQuantity old)) ∧
  (∀ other, other ≠ item → tempStock st' !! other = tempStock st !! other) ∧
  stock st' = stock st.
Proof.
  intros _ Hsafe.
  cbn. unfold changeTempStock, editedQuantity. rewrite (parseInt_pretty_Z _ Hsafe).
  rewrite lookup_insert_eq. repeat split.
  - do 2 f_equal. case_bool_decide; lia.
  - intros other Hne. by rewrite lookup_insert_ne.
Qed.

(** ** The fence around an answer *)

Lemma append_cons x (a b : string) : String x a +:+ b = String x (a +:+ b).
Proof. reflexivity. Qed.

Lemma append_assoc (a b c : string) : (a +:+ b) +:+ c = a +:+ (b +:+ c).
Proof. induction a as [|x a IH]; [done|]. by rewrite !append_cons, IH. Qed.

Lemma append_nil_r (a : string) : a +:+ "" = a.
Proof. induction a as [|x a IH]; [done|]. by rewrite append_cons, IH. Qed.

Lemma length_append (a b : string) :
  String.length (a +:+ b) = (String.length a + String.length b)%nat.
Proof. induction a as [|x a IH]; [done|]. rewrite append_cons. cbn. by rewrite IH. Qed.

Lemma rev_app_append (s acc : string) :
  String.rev_app s acc = String.rev s +:+ acc.
Proof.
  unfold String.rev. revert acc. induction s as [|x s IH]; intros acc; [done|].
  cbn [String.rev_app]. rewrite (IH (String x acc)).
  rewrite (IH (String x "")). by rewrite append_assoc.
Qed.

Lemma rev_append (a b : string) : String.rev (a +:+ b) = String.rev b +:+ String.rev a.
Proof.
  induction a as [|x a IH].
  - cbn. by rewrite append_nil_r.
  - change (String x a +:+ b) with (String x (a +:+ b)).
    unfold String.rev at 1 3. cbn [String.rev_app].
    rewrite !(rev_app_append _ (String x "")), IH. by rewrite append_assoc.
Qed.

Lemma rev_involutive (s : string) : String.rev (String.rev s) = s.
Proof.
  induction s as [|x s IH]; [done|].
  change (String x s) with (String x "" +:+ s) at 1.
  rewrite rev_append, rev_append, IH. done.
Qed.

Lemma substring_append (a b : string) : substring 0 (String.length a) (a +:+ b) = a.
Proof.
  induction a as [|x a IH]; [by destruct b|].
  rewrite append_cons. cbn. by rewrite IH.
Qed.

Lemma prefix_append (a b : string) : String.prefix a (a +:+ b) = true.
Proof.
  induction a as [|x a IH]; [by destruct b|].
  rewrite append_cons. cbn. by destruct (ascii_dec x x).
Qed.

Lemma allOf_rev p (s : string) : allOf p (String.rev s) = allOf p s.
Proof.
  assert (Happ : ∀ a b, allOf p (a +:+ b) = allOf p a && allOf p b).
  { intros a b. induction a as [|x a IH]; [done|].
    rewrite append_cons. cbn. rewrite IH. by rewrite andb_assoc. }
  induction s as [|x s IH]; [done|].
  change (String x s) with (String x "" +:+ s) at 1.
  rewrite rev_append, Happ, IH. cbn. rewrite andb_true_r. apply andb_comm.
Qed.

Lemma dropWord_tag tag rest :
  allOf isWordChar tag = true → dropWord (tag +:+ rest) = dropWord rest.
Proof.
  induction tag as [|x tag IH]; [done|]. rewrite append_cons. cbn.
  intros [Hx Htag]%andb_true_iff. rewrite Hx. auto.
Qed.

Lemma trimStart_spaces sep rest :
  allOf isWhiteSpace sep = true → trimStart (sep +:+ rest) = trimStart rest.
Proof.
  induction sep as [|x sep IH]; [done|]. rewrite append_cons. cbn.
  intros [Hx Hsep]%andb_true_iff. rewrite Hx. auto.
Qed.

Lemma dropWord_append a b : a ≠ "" → dropWord a = a → dropWord (a +:+ b) = a +:+ b.
Proof.
  destruct a as [|x a]; [done|]. intros _. rewrite append_cons. cbn.
  destruct (isWordChar x); [|done].
  intros Heq. exfalso.
  assert (Hlen : ∀ s, (String.length (dropWord s) ≤ String.length s)%nat).
  { induction s as [|y s IHs]; cbn; [done|]. destruct (isWordChar y); cbn; lia. }
  pose proof (Hlen a) as Hle. rewrite Heq in Hle. cbn in Hle. lia.
Qed.

Lemma trimStart_append a b : a ≠ "" → trimStart a = a → trimStart (a +:+ b) = a +:+ b.
Proof.
  destruct a as [|x a]; [done|]. intros _. rewrite append_cons. cbn.
  destruct (isWhiteSpace x); [|done].
  intros Heq. exfalso.
  assert (Hlen : ∀ s, (String.length (trimStart s) ≤ String.length s)%nat).
  { induction s as [|y s IHs]; cbn; [done|]. destruct (isWhiteSpace y); cbn; lia. }
  pose proof (Hlen a) as Hle. rewrite Heq in Hle. cbn in Hle. lia.
Qed.

(** X22. An answer wrapped in a fence is unwrapped exactly: three
    backquotes, a language tag of word characters, white space, a body,
    white space and three backquotes give the body, provided the body is
    not empty, has no white space at either end, and what follows the tag
    does not begin with a word character. *)
Theorem fenced_answer_is_unwrapped tag sep1 body sep2 :
  allOf isWordChar tag = true →
  allOf isWhiteSpace sep1 = true →
  allOf isWhiteSpace sep2 = true →
  body ≠ "" → trimStart body = body → trimEnd body = body →
  dropWord (sep1 +:+ body) = sep1 +:+ body →
  stripFence ("```" +:+ ((tag +:+ (sep1 +:+ (body +:+ sep2))) +:+ "```")) = body.
Proof.
  intros Htag Hsep1 Hsep2 Hbody Hstart Hend Hword.
  set (inner := tag +:+ (sep1 +:+ (body +:+ sep2))).
  unfold stripFence.
  assert (Hlen : String.length ("```" +:+ (inner +:+ "```"))
                 = (6 + String.length inner)%nat).
  { rewrite !length_append. cbn. lia. }
  assert (Hends : endsWith "```" ("```" +:+ (inner +:+ "```")) = true).
  { unfold endsWith. rewrite !rev_append, append_assoc. apply prefix_append. }
  rewrite Hlen, Hends.
  replace (6 + String.length inner - 6)%nat with (String.length inner) by lia.
  change (substring 3 (String.length inner) ("```" +:+ (inner +:+ "```")))
    with (substring 0 (String.length inner) (inner +:+ "```")).
  rewrite substring_append.
  rewrite prefix_append.
  replace (6 <=? 6 + String.length inner)%nat with true
    by (symmetry; apply Nat.leb_le; lia).
  cbn [andb]. subst inner.
  rewrite (dropWord_tag _ _ Htag).
  assert (Hne : sep1 +:+ body ≠ "").
  { destruct sep1; [done|]. done. }
  rewrite <- append_assoc, (dropWord_append _ _ Hne Hword), append_assoc.
  rewrite (trimStart_spaces _ _ Hsep1), (trimStart_append _ _ Hbody Hstart).
  assert (Htail : trimEnd (body +:+ sep2) = body).
  { unfold trimEnd in *. rewrite rev_append, trimStart_spaces
      by (by rewrite allOf_rev). done. }
  rewrite Htail. unfold blank. by rewrite bool_decide_eq_false_2.
Qed.

(** ** Incomplete forms *)

Lemma findReport_overwritten rs sel fd :
  findReport ((λ r, if bool_decide (id r = sel) then overwrite r fd else r) <$> rs) sel
    = (λ r, overwrite r fd) <$> findReport rs sel.
Proof.
  induction rs as [|r rs IH]; [done|]. rewrite fmap_cons, !findReport_cons.
  destruct (decide (id r = sel)) as [Heq|Hne].
  - rewrite (bool_decide_eq_true_2 _ Heq). cbn. by rewrite bool_decide_eq_true_2.
  - rewrite (bool_decide_eq_false_2 _ Hne). by rewrite bool_decide_eq_false_2.
Qed.

(** X23. Only the creation of a report checks that the form is filled: with
    a draft that lacks the name of the requester, Add is refused with an
    alert and changes nothing, while Update, for a selected report that
    stays in Process, goes through without an alert and stores the draft
    as it is in place of the fields of the report. *)
Theorem update_stores_an_incomplete_form today now st original :
  selectedReport st = Some original →
  status (fields original) = Process →
  status (formData st) = Process →
  requesterName (formData st) = "" →
  handle today (AddReport now) st =
    (st, [Alert "Please fill all fields, including dates."]) ∧
  (handle today UpdateReport st).2 = [] ∧
  findReport (reports (handle today UpdateReport st).1) (id original) =
    Some (mkReport (id original) (formData st)) ∧
  stock (handle today UpdateReport st).1 = stock st.
Proof.
  intros Hsel Ho Hu Hname. split.
  - cbn. unfold handleAddReport, blank. by rewrite Hname.
  - assert (Hnil : updateShortfalls (stock st) (fields original) (formData st) = []).
    { unfold updateShortfalls. by rewrite Ho, Hu. }
    rewrite (updateShortfalls_nil_accepts today _ _ Hsel Hnil). cbn -[findReport].
    apply selectedReport_Some in Hsel as (sel & Hid & _ & Hfind).
    pose proof (findReport_elem _ _ _ Hfind) as [_ Hsel].
    split; [done|]. split.
    + rewrite Hid, Hsel.
      assert (Hsame : (λ r, if bool_decide (Some (id r) = Some sel)
                            then overwrite r (formData st) else r) <$> reports st
                    = (λ r, if bool_decide (id r = sel)
                            then overwrite r (formData st) else r) <$> reports st).
      { apply list_fmap_ext. intros i r _.
        destruct (decide (id r = sel)) as [Heq|Hne].
        - by rewrite !bool_decide_eq_true_2 by congruence.
        - by rewrite !bool_decide_eq_false_2 by congruence. }
      rewrite Hsame, findReport_overwritten, Hfind. cbn. unfold overwrite.
      by rewrite Hsel.
    + unfold reconcileUpdate. by rewrite Ho, Hu.
Qed.

(** ** Manual stock editing, continued *)

Lemma lookup_typed_last before item value after temp :
  item ∉ after.*1 →
  typed (before ++ (item, value) :: after) temp !! item =
    (let currentItem := default emptyStockItem (typed before temp !! item) in
     Some (mkStockItem (editedQuantity value) (lastInDate currentItem)
             (lastOutDate currentItem) (lastUpdateQuantity currentItem))).
Proof.
  intros Hlast. unfold typed. rewrite foldl_app. cbn [foldl fst snd].
  fold (typed before temp).
  fold (typed after (changeTempStock item value (typed before temp))).
  rewrite (proj1 (lookup_typed after _ item) Hlast).
  unfold changeTempStock. by rewrite lookup_insert_eq.
Qed.

Lemma quantity_savedEntry today s item edited :
  quantity (savedEntry today s item edited) = quantity edited.
Proof. unfold savedEntry. by repeat case_bool_decide. Qed.

Lemma stockNonNegative_typed edits temp :
  stockNonNegative temp → stockNonNegative (typed edits temp).
Proof.
  induction edits as [|e edits IH] using rev_ind; [done|].
  intros Ht. rewrite typed_snoc. by apply stockNonNegative_changeTempStock, IH.
Qed.

(** C9, as stated, fails: the editor was opened on a stock holding
    [Bk: -5], the stock was replaced by an import while the editor was
    open and holds [Bk: 5]; typing a quantity for another item and saving
    writes the whole editing copy, and takes Bk from 5 to -5. *)
Lemma manual_edit_negative_counterexample :
  ¬ editNeverNegative "2024-03-14" [("Card", "3")] staleEditor.
Proof.
  intros Hclaim.
  assert (Hbefore : stock staleEditor = {["Bk" := mkStockItem 5 "2024-03-01" "" 0]}).
  { vm_compute. reflexivity. }
  assert (Hafter : stock (committed "2024-03-14" [("Card", "3")] staleEditor) !! "Bk"
                   = Some (mkStockItem (-5) "2024-03-01" "2024-03-14" (-10))).
  { vm_compute. reflexivity. }
  assert (Hnonneg : stockNonNegative (stock staleEditor)).
  { rewrite Hbefore. intros item si [_ <-]%lookup_singleton_Some. cbn. lia. }
  pose proof (Hclaim Hnonneg "Bk" _ Hafter) as Hneg. cbn in Hneg. lia.
Qed.

(** C9, amended. Whatever was typed in the stock editor, the quantity a
    save commits for an item a quantity was typed for is read from the
    last text typed for it (a text that spells no number beyond
    [MAX_SAFE_INTEGER]): the integer the text begins with when it is at
    least 0, and 0 when the text spells no number or a negative one (for
    the decimal numeral of [q], the larger of 0 and [q]); so that quantity
    is never negative. An item nothing was typed for is
    committed with the quantity the editing copy held, and with its whole
    stock entry when the copy agreed with the stock on it. When no quantity
    of the editing copy was negative before the typing, as is the case for
    a copy in sync with a stock without negative quantities, no committed
    quantity is negative. *)
Theorem manual_edit_commits_nonnegative today st before item value after :
  item ∉ after.*1 →
  readExactly value →
  let edits := (before ++ (item, value) :: after)%list in
  let st' := committed today edits st in
  (∃ si', stock st' !! item = Some si' ∧
     quantity si' = editedQuantity value ∧ (0 ≤ quantity si')%Z ∧
     (parseInt value = None ∨ (∃ q, parseInt value = Some q ∧ (q < 0)%Z) →
      quantity si' = 0%Z) ∧
     (∀ q, parseInt value = Some q → (0 ≤ q)%Z → quantity si' = q) ∧
     (∀ q, (Z.abs q ≤ MAX_SAFE_INTEGER)%Z → value = pretty q →
           quantity si' = Z.max 0 q)) ∧
  (∀ other, other ∉ edits.*1 →
     quantity <$> stock st' !! other = quantity <$> tempStock st !! other ∧
     (tempStock st !! other = stock st !! other →
      stock st' !! other = stock st !! other)) ∧
  (stockNonNegative (tempStock st) → stockNonNegative (stock st')).
Proof.
  intros Hlast _ edits st'. subst st' edits. unfold committed.
  rewrite run_TempStockChange. cbn. split; [|split].
  - rewrite lookup_savedStock, (lookup_typed_last _ _ _ _ _ Hlast). cbn.
    eexists. split; [done|]. rewrite quantity_savedEntry. cbn.
    split; [done|]. split; [apply editedQuantity_nonneg|].
    split; [apply editedQuantity_coerced|]. split.
    + intros q Hparse Hpos. unfold editedQuantity. rewrite Hparse.
      by rewrite bool_decide_eq_false_2 by lia.
    + intros q Hsafe ->. unfold editedQuantity.
      rewrite (parseInt_pretty_Z _ Hsafe). case_bool_decide; lia.
  - intros other Hother. rewrite lookup_savedStock.
    rewrite (proj1 (lookup_typed _ (tempStock st) other) Hother). split.
    + destruct (tempStock st !! other) as [edited|]; [|done]. cbn.
      by rewrite quantity_savedEntry.
    + intros Hsync. rewrite Hsync.
      destruct (stock st !! other) as [si|] eqn:Hsi; [|done]. cbn.
      by rewrite (savedEntry_same _ _ _ _ Hsi).
  - intros Htemp. by apply stockNonNegative_savedStock, stockNonNegative_typed.
Qed.

(** ** PDF import, continued *)

Lemma validated_sound run v parsedReports parsedStock :
  validated run v parsedReports parsedStock →
  importPayload run =
    Returned (List.filter hasRequiredFields (imap (reportOf run) parsedReports),
              importedStock parsedStock).
Proof.
  unfold importPayload. intros (Hv & Hobj & Hrs & Hnull & Hs & Hsobj).
  apply requestPayload_answered in Hv. rewrite Hv. cbn.
  unfold validatePayload. rewrite not_object_check, Hobj, Hrs. cbn.
  rewrite (importedReports_no_null _ _ _ Hnull). cbn.
  by rewrite stock_check, Hs, Hsobj.
Qed.

Lemma import_fails_or_validated run :
  (∃ e, importFails run e) ∨
  (∃ v parsedReports parsedStock, validated run v parsedReports parsedStock).
Proof.
  destruct (extractText run) as [t|e] eqn:Ht; [|left; eexists; by apply fails_extraction].
  destruct (decide (trim t = "")) as [Hb|Hb];
    [left; eexists; by eapply fails_no_text|].
  destruct (generateContent run t) as [a|e] eqn:Ha;
    [|left; eexists; by eapply fails_service].
  destruct (JSON_parse run (stripFence (trim a))) as [v|e] eqn:Hp;
    [|left; eexists; by eapply fails_parse].
  assert (Hv : answered run v) by (by exists t, a).
  destruct (isObjectValue v) eqn:Hobj;
    [|left; eexists; by eapply fails_not_object].
  destruct (getProp v "reports") as [[| | | |rs|]|] eqn:Hr;
    try (left; eexists; eapply fails_reports_not_array; [done|done|];
         intros rs; by rewrite Hr).
  destruct (null_entry_dec rs) as [Hnull|Hnull];
    [left; eexists; by eapply fails_null_report|].
  destruct (getProp v "stock") as [sv|] eqn:Hs.
  - destruct (isObjectValue sv) eqn:Hsobj.
    + right. by exists v, rs, sv.
    + left. eexists. eapply fails_stock_not_object; try done.
      intros sv'. rewrite Hs. by intros [= <-].
  - left. eexists. eapply fails_stock_not_object; try done.
    intros sv'. by rewrite Hs.
Qed.

(** The typed reading of an entry is what [reportOf] builds. *)
Lemma textOr_reads v s : readsText v s → textOr "" v = s.
Proof.
  intros [->|[Hfalse ->]].
  - cbn. unfold blank. case_bool_decide; by subst.
  - destruct v as [[| | |t| |]|]; try done. cbn in *.
    unfold blank in *. by case_bool_decide.
Qed.

Lemma lookup_foldl_numbers (entries : list (string * Z)) (acc : gmap string Z) k :
  NoDup entries.*1 →
  foldl (λ m (kv : string * json),
           match kv.2 with JNum n => <[kv.1 := n]> m | _ => m end)
        acc ((λ e : string * Z, (e.1, JNum e.2)) <$> entries) !! k =
    match (list_to_map entries : gmap string Z) !! k with
    | Some n => Some n
    | None => acc !! k
    end.
Proof.
  revert acc. induction entries as [|[k0 n0] entries IH]; intros acc Hnd.
  - done.
  - apply NoDup_cons in Hnd as [Hfresh Hnd]. cbn [fmap list_fmap foldl fst snd].
    rewrite (IH _ Hnd). cbn [list_to_map foldr fst snd].
    destruct (decide (k = k0)) as [->|Hne].
    + rewrite lookup_insert_eq.
      by rewrite (not_elem_of_list_to_map_1 _ _ Hfresh), lookup_insert_eq.
    + by rewrite !lookup_insert_ne.
Qed.

Lemma itemsOf_reads v m : readsItems v m → itemsOf v = m.
Proof.
  intros [(entries & -> & Hnd & ->)|[Hother ->]].
  - apply map_eq. intros k. unfold itemsOf.
    rewrite (lookup_foldl_numbers _ _ _ Hnd), lookup_empty.
    by destruct (list_to_map entries !! k).
  - destruct v as [[| | | | |members]|]; try done. by destruct (Hother members).
Qed.

Lemma reportOf_fits run k item fd :
  fitsReport item fd →
  reportOf run k item =
    mkReport ("imported-" +:+ stamp run k +:+ "-" +:+ random run k) fd.
Proof.
  intros (_ & Hname & Hcampus & Himport & Hexport & Hitems & Hstatus).
  unfold reportOf. rewrite (textOr_reads _ _ Hname), (textOr_reads _ _ Hcampus).
  rewrite (textOr_reads _ _ Himport), (textOr_reads _ _ Hexport).
  rewrite (itemsOf_reads _ _ Hitems). f_equal. destruct fd as [? ? ? ? ? st].
  f_equal. cbn in Hstatus.
  destruct (getProp item "status") as [[| | |text| |]|] eqn:Hs;
    try (destruct st; [done|]; by pose proof (proj1 Hstatus eq_refl)).
  destruct (decide (text = "Done")) as [->|Hne].
  - destruct st; [|done]. by pose proof (proj2 Hstatus eq_refl).
  - assert (Hp : match text with "Done" => Done | _ => Process end = Process).
    { clear -Hne.
      repeat (destruct text as [|[[] [] [] [] [] [] [] []] text]; try done). }
    rewrite Hp. destruct st; [done|].
    pose proof (proj1 Hstatus eq_refl). congruence.
Qed.

Lemma imap_reportOf_fits run parsedReports drafts :
  Forall2 fitsReport parsedReports drafts →
  imap (reportOf run) parsedReports =
    imap (λ k fd, mkReport ("imported-" +:+ stamp run k +:+ "-" +:+ random run k) fd)
         drafts.
Proof.
  assert (Hgen : ∀ (f : nat → nat), Forall2 fitsReport parsedReports drafts →
    imap (λ k, reportOf run (f k)) parsedReports =
      imap (λ k fd, mkReport ("imported-" +:+ stamp run (f k) +:+ "-"
                              +:+ random run (f k)) fd) drafts).
  { intros f Hfits. revert f.
    induction Hfits as [|item fd rest drafts' Hfit _ IH]; intros f; [done|].
    cbn. rewrite (reportOf_fits _ _ _ _ Hfit). f_equal. apply (IH (f ∘ S)). }
  apply (Hgen (λ k, k)).
Qed.

Lemma fits_no_null parsedReports drafts :
  Forall2 fitsReport parsedReports drafts → JNull ∉ parsedReports.
Proof.
  induction 1 as [|item fd rest drafts' Hfit _ IH]; [apply not_elem_of_nil|].
  apply not_elem_of_cons. split; [|done]. intros <-. by destruct Hfit as [Hnull _].
Qed.

Lemma lastInDate_eqb (v : option json) :
  match v with
  | Some (JStr d) => if bool_decide (d = "N/A") then "" else d
  | _ => ""
  end =
  match v with
  | Some (JStr d) => if String.eqb d "N/A" then "" else d
  | _ => ""
  end.
Proof.
  destruct v as [[| | |d| |]|]; try done. case_bool_decide as Hd.
  - by subst d.
  - by rewrite (proj2 (String.eqb_neq d "N/A") Hd).
Qed.

(** Where the entries of the imported stock come from. *)
Lemma importedStock_from parsedStock item si :
  importedStock parsedStock !! item = Some si →
  ∃ stockItem n,
    (item, JObj stockItem) ∈ ownProps parsedStock ∧
    getProp (JObj stockItem) "quantity" = Some (JNum n) ∧
    si = mkStockItem n
           (match getProp (JObj stockItem) "lastInDate" with
            | Some (JStr d) => if String.eqb d "N/A" then "" else d
            | _ => ""
            end) "" 0.
Proof.
  unfold importedStock. generalize (ownProps parsedStock). intros l. revert si.
  match goal with |- context [foldl ?f _ _] => set (step := f) end.
  induction l as [|[k v] l IH] using rev_ind; intros si; [done|].
  rewrite foldl_app. cbn [foldl]. intros Hlook.
  assert (Hold : ∀ si0, foldl step ∅ l !! item = Some si0 →
    ∃ stockItem n,
      (item, JObj stockItem) ∈ (l ++ [(k, v)])%list ∧
      getProp (JObj stockItem) "quantity" = Some (JNum n) ∧
      si0 = mkStockItem n
              (match getProp (JObj stockItem) "lastInDate" with
               | Some (JStr d) => if String.eqb d "N/A" then "" else d
               | _ => ""
               end) "" 0).
  { intros si0 H0. destruct (IH si0 H0) as (stockItem & n & Hin & Hq & Hsi).
    exists stockItem, n. split; [apply elem_of_app; by left|done]. }
  unfold step at 1 in Hlook. cbn [fst snd] in Hlook.
  destruct v as [| | | | |ms]; try by apply Hold.
  destruct (getProp (JObj ms) "quantity") as [[| |n| | |]|] eqn:Hq; try by apply Hold.
  destruct (decide (item = k)) as [->|Hne].
  - rewrite lookup_insert_eq in Hlook. injection Hlook as <-.
    exists ms, n. split; [apply elem_of_app; right; by left|]. split; [done|].
    f_equal. apply lastInDate_eqb.
  - rewrite lookup_insert_ne in Hlook by done. by apply Hold.
Qed.

Lemma importedStock_to parsedStock item stockItem n :
  (item, JObj stockItem) ∈ ownProps parsedStock →
  getProp (JObj stockItem) "quantity" = Some (JNum n) →
  is_Some (importedStock parsedStock !! item).
Proof.
  unfold importedStock. generalize (ownProps parsedStock). intros l.
  match goal with |- context [foldl ?f _ _] => set (step := f) end.
  induction l as [|[k v] l IH] using rev_ind; intros Hin Hq.
  - by apply elem_of_nil in Hin.
  - rewrite foldl_app. cbn [foldl]. unfold step at 1. cbn [fst snd].
    apply elem_of_app in Hin as [Hin|Hin].
    + specialize (IH Hin Hq).
      destruct v as [| | | | |ms]; try done.
      destruct (getProp (JObj ms) "quantity") as [[| |m| | |]|]; try done.
      destruct (decide (item = k)) as [->|Hne].
      * by rewrite lookup_insert_eq.
      * by rewrite lookup_insert_ne.
    + apply list_elem_of_singleton in Hin. injection Hin as <- <-.
      rewrite Hq. by rewrite lookup_insert_eq.
Qed.

Lemma filter_required (rs : list Report) :
  List.filter hasRequiredFields rs =
    List.filter (λ r, negb (String.eqb (requesterName (fields r)) "")
                      && negb (String.eqb (campus (fields r)) "")
                      && negb (String.eqb (importDate (fields r)) "")) rs.
Proof.
  induction rs as [|r rs IH]; [done|]. cbn [List.filter]. rewrite IH.
  assert (Hsame : ∀ s, blank s = String.eqb s "").
  { intros s. unfold blank. case_bool_decide as Hs.
    - subst s. done.
    - symmetry. by apply String.eqb_neq. }
  unfold hasRequiredFields. by rewrite !Hsame.
Qed.

(** What an import of an answer that fits the declared types returns. *)
Lemma handlePdfImport_fits run st v parsedReports parsedStock drafts :
  validated run v parsedReports parsedStock →
  Forall2 fitsReport parsedReports drafts →
  handlePdfImport (Some run) st =
    (let newReports :=
       List.filter hasRequiredFields
         (imap (λ k fd, mkReport ("imported-" +:+ stamp run k +:+ "-"
                                  +:+ random run k) fd) drafts) in
     (set_stock (importedStock parsedStock) (set_reports newReports st),
      [Alert (importSuccess newReports)])).
Proof.
  intros Hvalid Hfits. unfold handlePdfImport.
  rewrite (validated_sound _ _ _ _ Hvalid).
  by rewrite (imap_reportOf_fits _ _ _ Hfits).
Qed.

(** C5. A run of the PDF import either fails at one of its steps (no text
    extracted, the service or the parser throwing, an answer that is no
    object, reports that are no array, a null report, stock that is no
    object), and then the handler returns the state it was given, reports
    and stock included, with the one alert [Error importing PDF: ]
    followed by the message of the failure; or the answer passes every
    check. Then the new state differs from the old one in its reports and
    its stock only, which are the same whatever the state was before, the
    one alert is
    [Successfully imported N reports and replaced the stock inventory.],
    and the stock is built from the answer alone: it holds an entry for a
    name only when the answer has an object with a numeric quantity under
    it, and (the name [__proto__] apart) whenever it has one, with that
    quantity, its date of entry unless that is the placeholder [N/A], no
    date of exit and no last delta. For an answer whose report entries fit
    the declared types, the reports are the entries that have a
    requester, a campus and an import date, in the order of the answer,
    under fresh identifiers, and N is their number. Nothing of the
    previous reports or stock is kept, and no quantity is compared with
    the stock. *)
Theorem pdf_import_all_or_nothing today run st :
  (∀ e, importFails run e →
     handle today (PdfImport (Some run)) st =
       (st,
        [Alert ("Error importing PDF: " +:+
                match e with
                | ErrorObject message => message
                | OtherValue => "An unknown error occurred."
                end)])) ∧
  (∀ v parsedReports parsedStock,
     validated run v parsedReports parsedStock →
     ∃ newReports newStock (count : nat),
       (∀ day previous,
          handle day (PdfImport (Some run)) previous =
            (set_stock newStock (set_reports newReports previous),
             [Alert ("Successfully imported " +:+ pretty count +:+
                     " reports and replaced the stock inventory.")])) ∧
       (∀ item si, newStock !! item = Some si →
          ∃ stockItem n,
            (item, JObj stockItem) ∈ ownProps parsedStock ∧
            getProp (JObj stockItem) "quantity" = Some (JNum n) ∧
            si = mkStockItem n
                   (match getProp (JObj stockItem) "lastInDate" with
                    | Some (JStr d) => if String.eqb d "N/A" then "" else d
                    | _ => ""
                    end) "" 0) ∧
       (∀ item stockItem n,
          item ≠ "__proto__" →
          (item, JObj stockItem) ∈ ownProps parsedStock →
          getProp (JObj stockItem) "quantity" = Some (JNum n) →
          is_Some (newStock !! item))) ∧
  (∀ v parsedReports parsedStock drafts,
     validated run v parsedReports parsedStock →
     Forall2 fitsReport parsedReports drafts →
     let newReports :=
       List.filter
         (λ r, negb (String.eqb (requesterName (fields r)) "")
               && negb (String.eqb (campus (fields r)) "")
               && negb (String.eqb (importDate (fields r)) ""))
         (imap (λ k fd, mkReport ("imported-" +:+ stamp run k +:+ "-"
                                  +:+ random run k) fd) drafts) in
     reports (handle today (PdfImport (Some run)) st).1 = newReports ∧
     (handle today (PdfImport (Some run)) st).2 =
       [Alert ("Successfully imported " +:+ pretty (length newReports) +:+
               " reports and replaced the stock inventory.")]) ∧
  ((∃ e, importFails run e) ∨
   (∃ v parsedReports parsedStock, validated run v parsedReports parsedStock)).
Proof.
  split; [|split; [|split]].
  - intros e He. cbn. rewrite (importFails_sound _ _ He). by destruct e.
  - intros v parsedReports parsedStock Hvalid.
    eexists _, (importedStock parsedStock), _. split; [|split].
    + intros day previous. cbn [handle]. unfold handlePdfImport.
      rewrite (validated_sound _ _ _ _ Hvalid). reflexivity.
    + apply importedStock_from.
    + intros item stockItem n _. apply importedStock_to.
  - intros v parsedReports parsedStock drafts Hvalid Hfits newReports.
    cbn [handle]. rewrite (handlePdfImport_fits _ _ _ _ _ _ Hvalid Hfits).
    cbv zeta. rewrite filter_required. done.
  - apply import_fails_or_validated.
Qed.

(** ** The list of weeks *)

Lemma utcDay_west offset date :
  (-1440 < offset ≤ 0)%Z → utcDay offset date = localDay date.
Proof. intros H. unfold utcDay. Z.to_euclidean_division_equations; lia. Qed.

Lemma utcDay_east offset date :
  (0 < offset ≤ 1440)%Z → utcDay offset date = (localDay date - 1)%Z.
Proof. intros H. unfold utcDay. Z.to_euclidean_division_equations; lia. Qed.

(** X24. For every import date that names a day of the calendar, the
    start of the week [getStartOfWeek] returns is a Monday in local time;
    in a zone east of Greenwich (up to fourteen hours) the date
    [toISOString] prints for it, which is the value [availableWeeks]
    offers, is the day before, a Sunday; at Greenwich and west of it (down
    to twelve hours) it is that Monday. *)
Theorem week_key_by_zone offset dateString date :
  newDate dateString = Some date →
  ∃ start, getStartOfWeek dateString = Some start ∧ getDay start = 1%Z ∧
    ((0 < offset ≤ 840)%Z →
       weekOf offset dateString =
         Some (toISODate 0 (mkDate (localDay start - 1)),
               "Week of " +:+ toLocaleDateString start) ∧
       getDay (mkDate (localDay start - 1)) = 0%Z) ∧
    ((-720 ≤ offset ≤ 0)%Z →
       weekOf offset dateString =
         Some (toISODate 0 start, "Week of " +:+ toLocaleDateString start)).
Proof.
  intros Hdate.
  destruct (week_starts_on_monday _ _ Hdate) as (start & Hstart & _ & Hmonday & _).
  exists start. split; [done|]. split; [done|].
  unfold weekOf. rewrite Hstart. cbn [mbind option_bind]. split.
  - intros Heast. split.
    + do 2 f_equal. unfold toISODate. rewrite utcDay_east by lia.
      by rewrite utcDay_west by (cbn; lia).
    + unfold getDay in *. cbn. Z.to_euclidean_division_equations; lia.
  - intros Hwest. do 2 f_equal. unfold toISODate.
    by rewrite !utcDay_west by lia.
Qed.

(** C7. The week [availableWeeks] offers for an import date is not
    aligned on Monday in a browser east of Greenwich. In Indochina Time
    (UTC+7), for a report imported on Wednesday 2024-03-13, the list of
    weeks is the single entry of value [2024-03-10] and label
    [Week of Mar 11, 2024]: [getStartOfWeek] returns Monday 2024-03-11 in
    local time, two days back, but the value is the date [toISOString]
    prints for that local midnight, which is Sunday 2024-03-10 in
    universal time. Selecting that week then filters on the seven days
    from that Sunday: a report of Sunday 2024-03-17, which belongs to the
    week of the 11th, is left out, and one of Sunday 2024-03-10 is let in.
    At Greenwich the value is the Monday. *)
Theorem available_weeks_key_is_a_sunday :
  availableWeeks indochinaTime "" [wednesdayReport]
    = [("2024-03-10", "Week of Mar 11, 2024")] ∧
  (λ d, civilFromDays (localDay d)) <$> getStartOfWeek "2024-03-13"
    = Some (2024, 3, 11)%Z ∧
  getDay <$> newDate "2024-03-11" = Some 1%Z ∧
  getDay <$> newDate "2024-03-10" = Some 0%Z ∧
  dateMatch "2024-03-10" "" "2024-03-17" = false ∧
  dateMatch "2024-03-10" "" "2024-03-10" = true ∧
  (λ d, civilFromDays (localDay d)) <$> getStartOfWeek "2024-03-17"
    = Some (2024, 3, 11)%Z ∧
  availableWeeks 0 "" [wednesdayReport]
    = [("2024-03-11", "Week of Mar 11, 2024")].
Proof. vm_compute. repeat split. Qed.

(** ** What an import builds *)

Lemma importedStock_fresh parsedStock :
  map_Forall (λ _ si, freshlyImported si) (importedStock parsedStock).
Proof.
  intros item si Hsi.
  destruct (importedStock_from _ _ _ Hsi) as (stockItem & n & _ & _ & ->).
  repeat split. cbn [lastInDate].
  generalize (getProp (JObj stockItem) "lastInDate").
  intros [[| | |d| |]|]; try done.
  destruct (String.eqb_spec d "N/A"); done.
Qed.

(** X18. What a successful PDF import of an answer whose report entries
    fit the declared types leaves behind: every report has a requester, a
    campus and an import date (the entries of the answer lacking one are
    dropped; an export date is not asked for), and every stock entry has
    an empty [lastOutDate], a [lastUpdateQuantity] of 0 and a [lastInDate]
    that is never the placeholder ['N/A']. *)
Theorem import_builds_complete_records today run st v parsedReports parsedStock
    drafts :
  validated run v parsedReports parsedStock →
  Forall2 fitsReport parsedReports drafts →
  let st' := (handle today (PdfImport (Some run)) st).1 in
  Forall (λ r, requesterName (fields r) ≠ "" ∧ campus (fields r) ≠ "" ∧
               importDate (fields r) ≠ "") (reports st') ∧
  map_Forall (λ _ si, freshlyImported si) (stock st').
Proof.
  intros Hvalid Hfits st'. subst st'. cbn [handle].
  rewrite (handlePdfImport_fits _ _ _ _ _ _ Hvalid Hfits). cbn. split.
  - apply Forall_forall. intros r Hr.
    apply list_elem_of_In, filter_In in Hr as [_ Hr].
    unfold hasRequiredFields, blank in Hr.
    apply andb_true_iff in Hr as [Hr H3]. apply andb_true_iff in Hr as [H1 H2].
    apply negb_true_iff, bool_decide_eq_false in H1, H2, H3. done.
  - apply importedStock_fresh.
Qed.

(** ** Loops on plain objects *)

Lemma readOr0_own (object : gmap string Z) name :
  name ∉ inheritedNames → readOr0 object name = Some (qty object name).
Proof.
  intros Hown. unfold readOr0, qty. destruct (object !! name); [done|].
  by rewrite bool_decide_eq_false_2.
Qed.

Lemma countedItems_own names :
  Forall (λ name, name ∉ inheritedNames) names →
  countedItems names = Some (countedOwn names).
Proof.
  induction names as [|x names IH] using rev_ind; [done|].
  intros [Hnames Hx]%Forall_app. rewrite Forall_singleton in Hx.
  unfold countedItems, countedOwn in *. rewrite !foldl_app. cbn [foldl].
  rewrite (IH Hnames). cbn. by rewrite (readOr0_own _ _ Hx).
Qed.




(** X14. For an array of item names none of which is a name plain
    objects inherit, the loop that replaces the array in an old report
    builds a map that holds, for each name of the array, the number of its
    occurrences, and has no entry for any other name; so every quantity of
    it is at least 1. *)
Theorem counted_items_are_occurrences names item :
  Forall (λ name, name ∉ inheritedNames) names →
  ∃ newItems, countedItems names = Some newItems ∧
    newItems !! item =
      (if decide (item ∈ names)
       then Some (Z.of_nat (length (filter (λ x, x = item) names)))
       else None) ∧
    positiveItems newItems.
Proof.
  intros Hown. exists (countedOwn names). split; [by apply countedItems_own|].
  apply countedOwn_occurrences.
Qed.

(** X15. For an array of item names none of which is a name plain
    objects inherit, replacing the array of an old report by the counted
    map does not change what [calculateTotalItems] shows for the report:
    the sum of the counts is the length of the array. *)
Theorem counting_keeps_total names :
  Forall (λ name, name ∉ inheritedNames) names →
  ∃ newItems, countedItems names = Some newItems ∧
    calculateTotalItems (Some (inr newItems)) =
      calculateTotalItems (Some (inl names)).
Proof.
  intros Hown. exists (countedOwn names). split; [by apply countedItems_own|].
  apply countedOwn_total.
Qed.


(** ** The further properties on the sample data *)




Lemma stock_never_negative_witness :
  ledgerInvariant (runRendered sampleSession threePens).
Proof.
  apply stock_never_negative.
  - reflexivity.
  - split; [|split; [|split]].
    + intros item si Hsi. unfold threePens, sampleState in Hsi. cbn [stock] in Hsi.
      apply lookup_singleton_Some in Hsi as [_ <-]. cbn. lia.
    + intros item si Hsi. unfold threePens, sampleState in Hsi. cbn [tempStock] in Hsi.
      apply lookup_singleton_Some in Hsi as [_ <-]. cbn. lia.
    + intros item q Hq. unfold threePens, sampleState, sampleForm in Hq.
      cbn [formData items] in Hq.
      apply lookup_singleton_Some in Hq as [_ <-]. lia.
    + constructor.
Defined.

Example sample_session_outcome :
  quantity <$> stock (runRendered sampleSession threePens) !! "Pen" = Some 3%Z ∧
  reports (runRendered sampleSession threePens) = [].
Proof. vm_compute. split; reflexivity. Qed.



Lemma select_then_update_is_void_witness :
  stock (handle "2024-03-20" UpdateReport
           (handle "2024-03-20" (SelectReport 0) fourCards).1).1 = stock fourCards ∧
  reports (handle "2024-03-20" UpdateReport
             (handle "2024-03-20" (SelectReport 0) fourCards).1).1 = reports fourCards.
Proof.
  destruct (select_then_update_is_void "2024-03-20" fourCards 0
              (mkReport "r1" (sampleForm {["Card" := 4%Z]} Done)))
    as (_ & Hreports & Hstock).
  - reflexivity.
  - vm_compute. apply NoDup_singleton.
  - discriminate.
  - split; [exact Hstock|exact Hreports].
Defined.

Lemma save_stock_keys_witness :
  dom (stock (handle "2024-03-20" SaveStock
                (run [("2024-03-20", TempStockChange "Glue" "4")] moreBooks)).1)
    = dom (stock moreBooks) ∪ list_to_set ["Glue"].
Proof.
  apply (save_stock_keys "2024-03-20" moreBooks [("Glue", "4")]). reflexivity.
Defined.


Lemma stored_stock_round_trip_witness :
  initialStock ["Bk"] [] "2024-04-01" (storedStock (stock moreBooks)) = stock moreBooks.
Proof.
  apply stored_stock_round_trip. vm_compute. reflexivity.
Defined.

Lemma week_filter_is_week_start_witness :
  dateMatch "2024-03-04" "" "2024-03-10" = true ↔
  ∃ start, getStartOfWeek "2024-03-10" = Some start ∧ localDay start = 19786%Z.
Proof.
  apply (week_filter_is_week_start "2024-03-04" "" "2024-03-10" (mkDate 19786)).
  - vm_compute. reflexivity.
  - reflexivity.
Defined.

Example week_filter_examples :
  dateMatch "2024-03-04" "" "2024-03-10" = true ∧
  dateMatch "2024-03-04" "" "2024-03-11" = false ∧
  dateMatch "2024-02-26" "" "2024-03-03" = true ∧
  dateMatch "2024-03-04" "" "not a date" = false ∧
  dateMatch "" "2024-03" "2024-03-11" = true ∧
  dateMatch "" "" "not a date" = true.
Proof. vm_compute. repeat split. Qed.

Lemma fenced_answer_is_unwrapped_witness :
  stripFence ("```" +:+ (("json" +:+ (" " +:+ ("[1, 2]" +:+ " "))) +:+ "```")) = "[1, 2]".
Proof.
  apply (fenced_answer_is_unwrapped "json" " " "[1, 2]" " ");
    try reflexivity. discriminate.
Defined.

Lemma update_stores_an_incomplete_form_witness :
  handle "2024-03-13" (AddReport "2024-03-13T08:00:00.000Z") namelessDraft =
    (namelessDraft, [Alert "Please fill all fields, including dates."]) ∧
  (handle "2024-03-13" UpdateReport namelessDraft).2 = [].
Proof.
  destruct (update_stores_an_incomplete_form "2024-03-13" "2024-03-13T08:00:00.000Z"
              namelessDraft (mkReport "r1" (sampleForm {["Pen" := 3%Z]} Process)))
    as (Hadd & Hupdate & _).
  - vm_compute. reflexivity.
  - reflexivity.
  - reflexivity.
  - reflexivity.
  - split; [exact Hadd|exact Hupdate].
Defined.

Example old_storage_is_upgraded :
  initialStock ["Bk"; "Pen"] ["Card"; "Glue"] "2024-04-01" oldStorage =
    {[ "Pen" := mkStockItem 42 "2024-04-01" "" 0;
       "Bk" := mkStockItem 7 "2023-11-05" "" 0;
       "Card" := mkStockItem 3 "2024-01-09" "" 0;
       "Glue" := mkStockItem 0 "" "" 0 ]}.
Proof. vm_compute. reflexivity. Qed.

Example months_of_three_reports :
  availableMonths
    [mkReport "a" (mkFormData "A" "C" "2024-03-13" "" ∅ Process);
     mkReport "b" (mkFormData "B" "C" "2023-12-01" "" ∅ Done);
     mkReport "c" (mkFormData "C" "C" "2024-03-02" "" ∅ Done);
     mkReport "d" (mkFormData "D" "C" "" "" ∅ Done)]
    = ["2024-03"; "2023-12"].
Proof. vm_compute. reflexivity. Qed.

Example counted_items_example :
  countedItems ["Pen"; "Bk"; "Pen"] = Some {["Pen" := 2%Z; "Bk" := 1%Z]} ∧
  countedItems ["Pen"; "constructor"] = None.
Proof. split; vm_compute; reflexivity. Qed.

(** ** The editor, the import, the weeks and the loops on the sample data *)

Lemma manual_edit_commits_nonnegative_witness :
  ∃ si',
    stock (committed "2024-03-20" [("Bk", "12"); ("Bk", "-4"); ("Card", "2")] moreBooks)
      !! "Bk" = Some si' ∧
    quantity si' = 0%Z.
Proof.
  destruct (manual_edit_commits_nonnegative "2024-03-20" moreBooks
              [("Bk", "12")] "Bk" "-4" [("Card", "2")])
    as [(si' & Hlook & _ & _ & Hzero & _) _].
  - compute_done.
  - vm_compute. discriminate.
  - exists si'. split; [exact Hlook|]. apply Hzero. right. exists (-4)%Z.
    split; [reflexivity|lia].
Defined.

Example stale_copy_is_saved :
  quantity <$> stock staleEditor !! "Bk" = Some 5%Z ∧
  quantity <$> stock (committed "2024-03-14" [("Card", "3")] staleEditor) !! "Bk"
    = Some (-5)%Z.
Proof. split; vm_compute; reflexivity. Qed.

Lemma pdf_import_all_or_nothing_witness :
  handle "2024-03-13" (PdfImport (Some blankRun)) tenPens
    = (tenPens, [Alert "Error importing PDF: Could not extract any text from the PDF."]) ∧
  (reports (handle "2024-03-13" (PdfImport (Some zeroQuantityRun)) tenPens).1
     = [mkReport "imported-2024-03-13T08:00:00.000Z-0.0"
          (mkFormData "Dara" "Main Campus" "2024-03-13" "2024-03-15"
                      {["Bk" := 0%Z]} Done)] ∧
   (handle "2024-03-13" (PdfImport (Some zeroQuantityRun)) tenPens).2
     = [Alert "Successfully imported 1 reports and replaced the stock inventory."]) ∧
  ∃ newReports newStock (count : nat),
    (∀ day previous,
       handle day (PdfImport (Some zeroQuantityRun)) previous
         = (set_stock newStock (set_reports newReports previous),
            [Alert ("Successfully imported " +:+ pretty count +:+
                    " reports and replaced the stock inventory.")])) ∧
    newStock !! "Pen" = None ∧ is_Some (newStock !! "Bk").
Proof.
  assert (Hvalid : validated zeroQuantityRun zeroQuantityPayload
            [JObj [("requesterName", JStr "Dara");
                   ("campus", JStr "Main Campus");
                   ("importDate", JStr "2024-03-13");
                   ("exportDate", JStr "2024-03-15");
                   ("items", JObj [("Bk", JNum 0)]);
                   ("status", JStr "Done")]]
            (JObj [("Bk", JObj [("quantity", JNum 7);
                                ("lastInDate", JStr "2024-03-01")])])).
  { split.
    { eexists _, _. split; [reflexivity|]. split; [vm_compute; discriminate|].
      split; reflexivity. }
    split; [reflexivity|]. split; [reflexivity|].
    split; [by intros [=]%list_elem_of_singleton|].
    split; reflexivity. }
  split; [|split].
  - destruct (pdf_import_all_or_nothing "2024-03-13" blankRun tenPens) as (Hfails & _).
    apply (Hfails (ErrorObject "Could not extract any text from the PDF.")).
    apply (fails_no_text blankRun "  "); reflexivity.
  - destruct (pdf_import_all_or_nothing "2024-03-13" zeroQuantityRun tenPens)
      as (_ & _ & Htyped & _).
    apply (Htyped _ _ _
             [mkFormData "Dara" "Main Campus" "2024-03-13" "2024-03-15"
                         {["Bk" := 0%Z]} Done] Hvalid).
    constructor; [|constructor].
    split; [discriminate|]. split; [left; reflexivity|].
    split; [left; reflexivity|]. split; [left; reflexivity|].
    split; [left; reflexivity|]. split.
    + left. exists [("Bk", 0%Z)]. split; [reflexivity|].
      split; [apply NoDup_singleton|reflexivity].
    + split; reflexivity.
  - destruct (pdf_import_all_or_nothing "2024-03-13" zeroQuantityRun tenPens)
      as (_ & Hsucceeds & _).
    destruct (Hsucceeds _ _ _ Hvalid)
      as (newReports & newStock & count & Hstate & Hfrom & Hto).
    exists newReports, newStock, count. split; [exact Hstate|]. split.
    + destruct (newStock !! "Pen") as [si|] eqn:Hpen; [|reflexivity].
      destruct (Hfrom "Pen" si Hpen) as (stockItem & n & Hin & _).
      apply list_elem_of_singleton in Hin. discriminate Hin.
    + apply (Hto "Bk" [("quantity", JNum 7); ("lastInDate", JStr "2024-03-01")] 7%Z).
      * discriminate.
      * left.
      * reflexivity.
Defined.

Lemma initial_stock_keys_witness :
  dom (initialStock ["Bk"; "Pen"] ["Card"] "2024-03-13"
         (JObj [("Pen", JNum 42); ("Tape", JNum 3)]))
    = list_to_set ["Bk"; "Pen"; "Card"] ∧
  initialStock ["Bk"; "Pen"] ["Card"] "2024-03-13"
    (JObj [("Pen", JNum 42); ("Tape", JNum 3)]) !! "Card" = Some emptyStockItem.
Proof.
  destruct (initial_stock_keys ["Bk"; "Pen"] ["Card"] "2024-03-13"
              [("Pen", JNum 42); ("Tape", JNum 3)]) as [Hdom Hempty].
  - compute_done.
  - split; [exact Hdom|]. apply Hempty; [compute_done|reflexivity].
Defined.

Lemma counted_items_are_occurrences_witness :
  ∃ newItems, countedItems ["Pen"; "Bk"; "Pen"] = Some newItems ∧
    newItems !! "Pen" = Some 2%Z.
Proof.
  destruct (counted_items_are_occurrences ["Pen"; "Bk"; "Pen"] "Pen")
    as (newItems & Hloop & Hcount & _).
  - compute_done.
  - exists newItems. split; [exact Hloop|exact Hcount].
Defined.

Lemma counting_keeps_total_witness :
  ∃ newItems, countedItems ["Pen"; "Bk"; "Pen"] = Some newItems ∧
    calculateTotalItems (Some (inr newItems)) = 3%Z.
Proof.
  destruct (counting_keeps_total ["Pen"; "Bk"; "Pen"]) as (newItems & Hloop & Htotal).
  - compute_done.
  - exists newItems. split; [exact Hloop|exact Htotal].
Defined.


Example inherited_name_is_not_counted :
  calculateItemCounts [mkReport "r1" (sampleForm {["constructor" := 3%Z]} Done)]
    = None.
Proof. vm_compute. reflexivity. Qed.

Lemma import_builds_complete_records_witness :
  map_Forall (λ _ si, freshlyImported si)
    (stock (handle "2024-03-13" (PdfImport (Some zeroQuantityRun))
              (firstState ["Bk"] ["Card"] "2024-03-13")).1).
Proof.
  eapply (import_builds_complete_records "2024-03-13" zeroQuantityRun _
            zeroQuantityPayload
            [JObj [("requesterName", JStr "Dara");
                   ("campus", JStr "Main Campus");
                   ("importDate", JStr "2024-03-13");
                   ("exportDate", JStr "2024-03-15");
                   ("items", JObj [("Bk", JNum 0)]);
                   ("status", JStr "Done")]]
            (JObj [("Bk", JObj [("quantity", JNum 7);
                                ("lastInDate", JStr "2024-03-01")])])
            [mkFormData "Dara" "Main Campus" "2024-03-13" "2024-03-15"
                        {["Bk" := 0%Z]} Done]).
  - split.
    { eexists _, _. split; [reflexivity|]. split; [vm_compute; discriminate|].
      split; reflexivity. }
    split; [reflexivity|]. split; [reflexivity|].
      split; [by intros [=]%list_elem_of_singleton|].
    split; reflexivity.
  - constructor; [|constructor].
    split; [discriminate|]. split; [left; reflexivity|].
    split; [left; reflexivity|]. split; [left; reflexivity|].
    split; [left; reflexivity|]. split.
    + left. exists [("Bk", 0%Z)]. split; [reflexivity|].
      split; [apply NoDup_singleton|reflexivity].
    + split; reflexivity.
Defined.

Lemma item_entry_reads_numeral_witness :
  items (formData (handle "2024-03-13" (ItemQuantityChange "Bk" "12") tenPens).1)
    !! "Bk" = Some 12%Z.
Proof.
  destruct (item_entry_reads_numeral "2024-03-13" tenPens "Bk" 12%Z) as [Hitem _].
  - discriminate.
  - vm_compute. discriminate.
  - exact Hitem.
Defined.

Lemma stock_entry_reads_numeral_witness :
  tempStock (handle "2024-03-13" (TempStockChange "Pen" "-7") tenPens).1 !! "Pen"
    = Some (mkStockItem 0 "2024-03-01" "" 5).
Proof.
  destruct (stock_entry_reads_numeral "2024-03-13" tenPens "Pen" (-7)%Z) as [Hitem _].
  - compute_done.
  - vm_compute. discriminate.
  - exact Hitem.
Defined.

Lemma week_key_by_zone_witness :
  weekOf indochinaTime "2024-03-13"
    = Some (toISODate 0 (mkDate (19793 - 1)), "Week of " +:+ toLocaleDateString (mkDate 19793)).
Proof.
  destruct (week_key_by_zone indochinaTime "2024-03-13" (mkDate 19795))
    as (start & Hstart & _ & Heast & _).
  - vm_compute. reflexivity.
  - vm_compute in Hstart. injection Hstart as <-.
    apply Heast. unfold indochinaTime. lia.
Defined.

Example week_key_in_two_zones :
  weekOf indochinaTime "2024-03-13" = Some ("2024-03-10", "Week of Mar 11, 2024") ∧
  weekOf (-300) "2024-03-13" = Some ("2024-03-11", "Week of Mar 11, 2024").
Proof. split; vm_compute; reflexivity. Qed.
